(** * HyDE weather widget ([Configs/.local/lib/hyde/weather.py])

    A shallow embedding of the status-bar weather script and the
    properties its specification states about it.

    The script is Python.  Its values are modelled as follows:
    - [str] is a sequence of Unicode code points ([pystr]);
    - [int] is [Z], [float] is an IEEE binary64 number ([spec_float] at
      precision 53, the specification the kernel's own floats obey);
    - [os.environ] is a finite map from names to values;
    - a statement that can raise is a function into [outcome]; a block that
      also mutates a dictionary threads that dictionary ([Py]).

    What the interpreter decides from its Unicode database or from where the
    script is installed (case folding, [repr] of text, parsing of numerals,
    the text of a traceback) is an interface, [PyBuiltins]; the script's
    functions are defined over any implementation of it. *)

From Stdlib Require Import ZArith NArith Ascii String SpecFloat Decimal.
From stdpp Require Import base option list gmap.

Set Default Proof Using "Type".
Set Warnings "-register-all".
Open Scope Z_scope.

(** ** Text *)

(** A Python [str]: its code points, in order. *)
Definition pystr := list N.

(** UTF-8 decoding, used to write literals of the script as Rocq strings. *)
Fixpoint utf8_decode (bs : list N) : pystr :=
  match bs with
  | [] => []
  | b0 :: r0 =>
    if (b0 <? 0x80)%N then b0 :: utf8_decode r0 else
    match r0 with
    | [] => []
    | b1 :: r1 =>
      if (b0 <? 0xE0)%N then ((b0 - 0xC0) * 0x40 + (b1 - 0x80))%N :: utf8_decode r1 else
      match r1 with
      | [] => []
      | b2 :: r2 =>
        if (b0 <? 0xF0)%N
        then (((b0 - 0xE0) * 0x40 + (b1 - 0x80)) * 0x40 + (b2 - 0x80))%N :: utf8_decode r2
        else
          match r2 with
          | [] => []
          | b3 :: r3 =>
            ((((b0 - 0xF0) * 0x40 + (b1 - 0x80)) * 0x40 + (b2 - 0x80)) * 0x40 + (b3 - 0x80))%N
              :: utf8_decode r3
          end
      end
    end
  end.

(** [py "text"] is the Python literal ["text"]. *)
Definition py (s : string) : pystr :=
  utf8_decode (N_of_ascii <$> list_ascii_of_string s).
Arguments py : simpl never.

(** Characters that have no spelling inside a Rocq string. *)
Definition dquote : N := 34.
Definition newline : N := 10.
Definition NUL : N := 0.

(** [c.isspace()]: the characters [str.strip()] removes. *)
Definition isspace (c : N) : bool :=
  ((9 <=? c) && (c <=? 13) || (28 <=? c) && (c <=? 32)
   || (c =? 0x85) || (c =? 0xA0) || (c =? 0x1680)
   || (0x2000 <=? c) && (c <=? 0x200A)
   || (c =? 0x2028) || (c =? 0x2029) || (c =? 0x202F) || (c =? 0x205F)
   || (c =? 0x3000))%N.

Fixpoint lstrip_with (p : N → bool) (s : pystr) : pystr :=
  match s with
  | [] => []
  | c :: r => if p c then lstrip_with p r else s
  end.
Definition rstrip_with (p : N → bool) (s : pystr) : pystr :=
  reverse (lstrip_with p (reverse s)).
Definition strip_with (p : N → bool) (s : pystr) : pystr :=
  rstrip_with p (lstrip_with p s).

(** [s.strip()] *)
Definition strip (s : pystr) : pystr := strip_with isspace s.

(** [s.strip(chars)] *)
Definition strip_chars (chars : pystr) (s : pystr) : pystr :=
  strip_with (λ c, bool_decide (c ∈ chars)) s.

(** [s.startswith(prefix)] *)
Fixpoint startswith (prefix s : pystr) : bool :=
  match prefix, s with
  | [], _ => true
  | p :: prefix', c :: s' => (p =? c)%N && startswith prefix' s'
  | _ :: _, [] => false
  end.

(** [s.split(sep)] for a separator of one character, which is what every
    call of the script passes. *)
Fixpoint split (sep : N) (s : pystr) : list pystr :=
  match s with
  | [] => [[]]
  | c :: r =>
    if (c =? sep)%N then [] :: split sep r
    else match split sep r with
         | h :: t => (c :: h) :: t
         | [] => [[c]]
         end
  end.

(** [s.split(sep, 1)], again for a separator of one character. *)
Fixpoint split1 (sep : N) (s : pystr) : list pystr :=
  match s with
  | [] => [[]]
  | c :: r =>
    if (c =? sep)%N then [[]; r]
    else match split1 sep r with
         | h :: t => (c :: h) :: t
         | [] => [[c]]
         end
  end.

(** Truth value of a [str]: non-empty. *)
Definition truthy (s : pystr) : bool :=
  match s with [] => false | _ => true end.

(** ** Exceptions and outcomes *)

Inductive exn_class :=
  | KeyError | IndexError | TypeError | ValueError | OverflowError
  | AttributeError | ZeroDivisionError | OSError | UnicodeDecodeError
  | RequestException.

(** An exception: its class and the text [str(e)] gives. *)
Record exn := Exn { exn_class_of : exn_class; exn_str : pystr }.

Inductive outcome (A : Type) :=
  | Ok (a : A)
  | Raised (e : exn).
Arguments Ok {A} a.
Arguments Raised {A} e.

#[export] Instance outcome_ret : MRet outcome := λ A a, Ok a.
#[export] Instance outcome_bind : MBind outcome := λ A B f m,
  match m with
  | Ok a => f a
  | Raised e => Raised e
  end.

#[export] Instance outcome_fmap : FMap outcome := λ A B f m,
  match m with
  | Ok a => Ok (f a)
  | Raised e => Raised e
  end.

(** A block of statements over a mutable object of type [S]: the object
    after the block, and whether the block finished or raised.  What was
    written before an exception stays written. *)
Definition Py (S A : Type) : Type := S → S * outcome A.

Definition py_ret {S A} (a : A) : Py S A := λ s, (s, Ok a).
Definition py_raise {S A} (e : exn) : Py S A := λ s, (s, Raised e).
Definition py_bind {S A B} (m : Py S A) (f : A → Py S B) : Py S B := λ s,
  match m s with
  | (s', Ok a) => f a s'
  | (s', Raised e) => (s', Raised e)
  end.
(** An expression that reads no state, evaluated inside a block. *)
Definition py_eval {S A} (o : outcome A) : Py S A := λ s, (s, o).

Declare Scope py_scope.
Delimit Scope py_scope with py.
Notation "x ←← m ; k" := (py_bind m (λ x, k))
  (at level 20, m at level 100, k at level 200, right associativity,
   format "x  ←←  m ;  '/' k") : py_scope.
Notation "m ;;; k" := (py_bind m (λ _, k))
  (at level 100, k at level 200, right associativity) : py_scope.

(** [for x in l: body(x)] *)
Fixpoint py_for {S A} (l : list A) (body : A → Py S unit) : Py S unit :=
  match l with
  | [] => py_ret ()
  | x :: r => py_bind (body x) (λ _, py_for r body)
  end.

(** [try: m / except Exception: pass] *)
Definition try_except_pass {S} (m : Py S unit) : Py S unit := λ s,
  match m s with
  | (s', _) => (s', Ok ())
  end.

(** ** Environment files *)

(** [os.environ[key] = value].  The interpreter refuses a name or a value
    with an embedded NUL, and the C library refuses the empty name. *)
Definition os_environ_set (key value : pystr) : Py (gmap pystr pystr) unit := λ env,
  if bool_decide (NUL ∈ key) || bool_decide (NUL ∈ value)
  then (env, Raised (Exn ValueError (py "embedded null byte")))
  else if bool_decide (key = [])
  then (env, Raised (Exn OSError (py "[Errno 22] Invalid argument")))
  else (<[key := value]> env, Ok ()).

(** A text file as [for line in f] delivers it: the lines read, and the
    error that ends the reading, if any (a byte sequence that is not UTF-8,
    an I/O error). *)
Record file := File { file_lines : list pystr; file_error : option exn }.

(** [open(filepath, encoding="utf-8")] *)
Definition filesystem := pystr → outcome file.

(** The body of the loop of [load_env_file], lines 38 to 42. *)
Definition load_env_line (line : pystr) : Py (gmap pystr pystr) unit :=
  if truthy (strip line) && negb (startswith (py "#") line) then
    let line :=
      if startswith (py "export ") line
      then drop (length (py "export ")) line
      else line in
    match split1 61 (strip line) with
    | [key; value] => os_environ_set key (strip_chars [dquote] value)
    | _ =>
      py_raise (Exn ValueError (py "not enough values to unpack (expected 2, got 1)"))
    end
  else py_ret ().

(** The [try] block of [load_env_file], lines 36 to 42. *)
Definition load_env_body (fs : filesystem) (filepath : pystr)
  : Py (gmap pystr pystr) unit :=
  (f ←← py_eval (fs filepath);
   py_for (file_lines f) load_env_line ;;;
   match file_error f with
   | Some e => py_raise e
   | None => py_ret ()
   end)%py.

Definition load_env_file (fs : filesystem) (filepath : pystr)
  : Py (gmap pystr pystr) unit :=
  try_except_pass (load_env_body fs filepath).

(** ** Numbers *)

(** Decimal digits of a natural number. *)
Fixpoint uint_digits (u : Decimal.uint) : pystr :=
  match u with
  | Decimal.Nil => []
  | Decimal.D0 u => 48%N :: uint_digits u
  | Decimal.D1 u => 49%N :: uint_digits u
  | Decimal.D2 u => 50%N :: uint_digits u
  | Decimal.D3 u => 51%N :: uint_digits u
  | Decimal.D4 u => 52%N :: uint_digits u
  | Decimal.D5 u => 53%N :: uint_digits u
  | Decimal.D6 u => 54%N :: uint_digits u
  | Decimal.D7 u => 55%N :: uint_digits u
  | Decimal.D8 u => 56%N :: uint_digits u
  | Decimal.D9 u => 57%N :: uint_digits u
  end.

Definition nat_str (n : N) : pystr := uint_digits (N.to_uint n).

(** [str(z)] for an [int]. *)
Definition int_str (z : Z) : pystr :=
  match z with
  | Zneg p => py "-" ++ nat_str (Npos p)
  | _ => nat_str (Z.to_N z)
  end.

(** Binary64 arithmetic, rounding to nearest, ties to even. *)
Definition fmul : spec_float → spec_float → spec_float := SFmul 53 1024.
Definition fdiv : spec_float → spec_float → spec_float := SFdiv 53 1024.
Definition fadd : spec_float → spec_float → spec_float := SFadd 53 1024.

(** An integer as an exact (not normalised) operand of [fdiv]. *)
Definition exact_int (z : Z) : spec_float :=
  match z with
  | Z0 => S754_zero false
  | Zpos p => S754_finite false p 0
  | Zneg p => S754_finite true p 0
  end.

(** The binary64 number nearest to [digits * 10 ^ exp10]: the value of a
    decimal literal such as [0.621371]. *)
Definition decimal_to_float (digits exp10 : Z) : spec_float :=
  if 0 <=? exp10
  then binary_normalize 53 1024 (digits * 10 ^ exp10) 0 false
  else fdiv (exact_int digits) (exact_int (10 ^ (- exp10))).

(** [float(z)] for an [int]: [OverflowError] beyond the range of binary64. *)
Definition float_of_int (z : Z) : outcome spec_float :=
  match binary_normalize 53 1024 z 0 false with
  | S754_infinity _ => Raised (Exn OverflowError (py "int too large to convert to float"))
  | f => Ok f
  end.

(** [a / b] for two [int]s: the quotient, rounded once. *)
Definition int_truediv (a b : Z) : outcome spec_float :=
  if b =? 0 then Raised (Exn ZeroDivisionError (py "division by zero"))
  else match fdiv (exact_int a) (exact_int b) with
       | S754_infinity _ =>
         Raised (Exn OverflowError (py "integer division result too large for a float"))
       | f => Ok f
       end.

(** Exact comparison of a float with an integer: is [f > n]?  False for NaN. *)
Definition float_gt_int (f : spec_float) (n : Z) : bool :=
  match f with
  | S754_nan => false
  | S754_infinity s => negb s
  | S754_zero _ => n <? 0
  | S754_finite s m e =>
    let v := if s then Zneg m else Zpos m in
    if 0 <=? e then n <? v * 2 ^ e else n * 2 ^ (- e) <? v
  end.

(** Nearest integer to [num / den], ties to even, for [0 <= num] and [0 < den]. *)
Definition round_half_even (num den : Z) : Z :=
  let q := num / den in
  match 2 * (num mod den) ?= den with
  | Lt => q
  | Gt => q + 1
  | Eq => if Z.even q then q else q + 1
  end.

Definition sign_str (s : bool) : pystr := if s then py "-" else [].

(** [format(f, ".1f")] for a float: the exact binary value rounded to one
    decimal, ties to even. *)
Definition float_format_1f (f : spec_float) : pystr :=
  match f with
  | S754_nan => py "nan"
  | S754_infinity s => sign_str s ++ py "inf"
  | S754_zero s => sign_str s ++ py "0.0"
  | S754_finite s m e =>
    let tenths :=
      if 0 <=? e then Zpos m * 2 ^ e * 10
      else round_half_even (Zpos m * 10) (2 ^ (- e)) in
    sign_str s ++ int_str (tenths / 10) ++ py "." ++ int_str (tenths mod 10)
  end.

(** *** [repr] of a float: the shortest decimal that reads back as it *)

(** [d * 10 ^ q] compared with [a * 2 ^ e], exactly. *)
Definition cmp_scaled (d q a e : Z) : comparison :=
  d * 10 ^ Z.max q 0 * 2 ^ Z.max (- e) 0 ?= a * 2 ^ Z.max e 0 * 10 ^ Z.max (- q) 0.

(** The largest [E] with [10 ^ E <= a * 2 ^ e], for [0 < a]. *)
Definition floor_log10 (a e : Z) : Z :=
  let est := (Z.log2 a + e) * 1233 / 4096 in
  let le E := match cmp_scaled 1 E a e with Gt => false | _ => true end in
  if le (est + 2) then est + 2
  else if le (est + 1) then est + 1
  else if le est then est
  else if le (est - 1) then est - 1
  else est - 2.

(** The decimal [d * 10 ^ q] of [k] digits nearest to [x * 2 ^ e], when it
    lies between [lo * 2 ^ e] and [hi * 2 ^ e] (bounds included when [incl]). *)
Definition decimal_within (incl : bool) (lo x hi e E k : Z) : option (Z * Z) :=
  let q := E - k + 1 in
  let dlo := (x * 2 ^ Z.max e 0 * 10 ^ Z.max (- q) 0)
             / (2 ^ Z.max (- e) 0 * 10 ^ Z.max q 0) in
  let dhi := dlo + 1 in
  let inside d :=
    match cmp_scaled d q lo e, cmp_scaled d q hi e with
    | Gt, Lt => true
    | Eq, (Lt | Eq) | Gt, Eq => incl
    | _, _ => false
    end in
  match inside dlo, inside dhi with
  | true, true =>
    match cmp_scaled (dlo + dhi) q (2 * x) e with
    | Gt => Some (dlo, q)
    | Lt => Some (dhi, q)
    | Eq => Some (if Z.even dlo then dlo else dhi, q)
    end
  | true, false => Some (dlo, q)
  | false, true => Some (dhi, q)
  | false, false => None
  end.

(** The first number of digits, from [k] on, that suffices; 17 always do. *)
Fixpoint shortest_from (fuel : nat) (incl : bool) (lo x hi e E k : Z) : Z * Z :=
  match decimal_within incl lo x hi e E k, fuel with
  | Some dq, _ => dq
  | None, S fuel' => shortest_from fuel' incl lo x hi e E (k + 1)
  | None, O => (x * 2 ^ Z.max e 0, 0)
  end.

(** The shortest decimal that rounds to the binary64 number [m * 2 ^ e]:
    the neighbours are one unit of the last place away, the lower one half a
    unit when [m] is the least mantissa of its binade. *)
Definition shortest_decimal (m : positive) (e : Z) : Z * Z :=
  let x := 4 * Zpos m in
  let lo := if (Zpos m =? 2 ^ 52) && (-1074 <? e) then x - 1 else x - 2 in
  let hi := x + 2 in
  shortest_from 17 (Z.even (Zpos m)) lo x hi (e - 2) (floor_log10 x (e - 2)) 1.

Definition zeros (n : Z) : pystr := replicate (Z.to_nat n) 48%N.

(** Layout of [repr]: scientific notation below [1e-4] and from [1e16] on. *)
Definition repr_layout (digits : pystr) (decpt : Z) : pystr :=
  let nd := Z.of_nat (length digits) in
  if (decpt <=? -4) || (16 <? decpt) then
    let ex := decpt - 1 in
    take 1 digits
    ++ (if 1 <? nd then py "." ++ drop 1 digits else [])
    ++ py "e" ++ (if ex <? 0 then py "-" else py "+")
    ++ (if Z.abs ex <? 10 then py "0" else []) ++ int_str (Z.abs ex)
  else if decpt <=? 0 then py "0." ++ zeros (- decpt) ++ digits
  else if decpt <? nd
  then take (Z.to_nat decpt) digits ++ py "." ++ drop (Z.to_nat decpt) digits
  else digits ++ zeros (decpt - nd) ++ py ".0".

(** [repr(f)], which is also [str(f)] and what an f-string field without a
    format gives. *)
Definition float_repr (f : spec_float) : pystr :=
  match f with
  | S754_nan => py "nan"
  | S754_infinity s => sign_str s ++ py "inf"
  | S754_zero s => sign_str s ++ py "0.0"
  | S754_finite s m e =>
    let '(d, q) := shortest_decimal m e in
    let all := int_str d in
    let digits := rstrip_with (λ c, c =? 48)%N all in
    sign_str s ++ repr_layout digits (Z.of_nat (length all) + q)
  end.

(** ** Values *)

(** What [response.json()] can return, and so what the script computes on. *)
Inductive pyval :=
  | VNone
  | VBool (b : bool)
  | VInt (z : Z)
  | VFloat (f : spec_float)
  | VStr (s : pystr)
  | VList (l : list pyval)
  | VDict (d : list (pystr * pyval)).

(** What the interpreter supplies and the script does not define.  The
    texts of the exceptions below are those of CPython 3.11. *)
Class PyBuiltins := {
  (** [s.lower()] *)
  str_lower : pystr → pystr;
  (** [repr(s)] for a [str] *)
  str_repr : pystr → pystr;
  (** [int(s)] for a [str]: [None] stands for [ValueError] *)
  int_of_str : pystr → option Z;
  (** [float(s)] for a [str]: [None] stands for [ValueError] *)
  float_of_str : pystr → option spec_float;
  (** [traceback.format_exc()] while [e] is handled *)
  format_exc : exn → pystr;
}.

Definition type_name (v : pyval) : pystr :=
  match v with
  | VNone => py "NoneType"
  | VBool _ => py "bool"
  | VInt _ => py "int"
  | VFloat _ => py "float"
  | VStr _ => py "str"
  | VList _ => py "list"
  | VDict _ => py "dict"
  end.

(** [sep.join(l)] *)
Fixpoint join (sep : pystr) (l : list pystr) : pystr :=
  match l with
  | [] => []
  | [x] => x
  | x :: r => x ++ sep ++ join sep r
  end.

Definition unsupported_operand (op : string) (v : pyval) (rhs : string) : exn :=
  Exn TypeError
    (py "unsupported operand type(s) for " ++ py op ++ py ": '" ++ type_name v
     ++ py "' and '" ++ py rhs ++ py "'").

(** [seq * n] for a sequence *)
Definition repeat_seq {A} (l : list A) (n : Z) : list A :=
  mjoin (replicate (Z.to_nat n) l).

(** [v * n] for an [int] [n] *)
Definition py_mul_int (v : pyval) (n : Z) : outcome pyval :=
  match v with
  | VBool b => Ok (VInt (Z.b2z b * n))
  | VInt z => Ok (VInt (z * n))
  | VFloat f => x ← float_of_int n; Ok (VFloat (fmul f x))
  | VStr s => Ok (VStr (repeat_seq s n))
  | VList l => Ok (VList (repeat_seq l n))
  | VNone | VDict _ => Raised (unsupported_operand "*" v "int")
  end.

(** [v / n] for an [int] [n] *)
Definition py_truediv_int (v : pyval) (n : Z) : outcome pyval :=
  match v with
  | VBool b => VFloat <$> int_truediv (Z.b2z b) n
  | VInt z => VFloat <$> int_truediv z n
  | VFloat f =>
    if n =? 0 then Raised (Exn ZeroDivisionError (py "float division by zero"))
    else x ← float_of_int n; Ok (VFloat (fdiv f x))
  | _ => Raised (unsupported_operand "/" v "int")
  end.

(** [v + n] for an [int] [n] *)
Definition py_add_int (v : pyval) (n : Z) : outcome pyval :=
  match v with
  | VBool b => Ok (VInt (Z.b2z b + n))
  | VInt z => Ok (VInt (z + n))
  | VFloat f => x ← float_of_int n; Ok (VFloat (fadd f x))
  | VStr _ | VList _ =>
    Raised (Exn TypeError
      (py "can only concatenate " ++ type_name v ++ py " (not " ++ [dquote] ++ py "int"
       ++ [dquote] ++ py ") to " ++ type_name v))
  | VNone | VDict _ => Raised (unsupported_operand "+" v "int")
  end.

(** [v > n] for an [int] [n] *)
Definition py_gt_int (v : pyval) (n : Z) : outcome bool :=
  match v with
  | VBool b => Ok (n <? Z.b2z b)
  | VInt z => Ok (n <? z)
  | VFloat f => Ok (float_gt_int f n)
  | _ =>
    Raised (Exn TypeError
      (py "'>' not supported between instances of '" ++ type_name v ++ py "' and 'int'"))
  end.

(** [v * c] for a [float] [c] *)
Definition py_mul_float (v : pyval) (c : spec_float) : outcome pyval :=
  match v with
  | VBool b => x ← float_of_int (Z.b2z b); Ok (VFloat (fmul x c))
  | VInt z => x ← float_of_int z; Ok (VFloat (fmul x c))
  | VFloat f => Ok (VFloat (fmul f c))
  | VStr _ | VList _ =>
    Raised (Exn TypeError (py "can't multiply sequence by non-int of type 'float'"))
  | VNone | VDict _ => Raised (unsupported_operand "*" v "float")
  end.

(** [f"{v:.1f}"] *)
Definition py_format_1f (v : pyval) : outcome pystr :=
  match v with
  | VBool b => float_format_1f <$> float_of_int (Z.b2z b)
  | VInt z => float_format_1f <$> float_of_int z
  | VFloat f => Ok (float_format_1f f)
  | VStr _ => Raised (Exn ValueError (py "Unknown format code 'f' for object of type 'str'"))
  | _ =>
    Raised (Exn TypeError
      (py "unsupported format string passed to " ++ type_name v ++ py ".__format__"))
  end.

Definition not_subscriptable (v : pyval) : exn :=
  Exn TypeError (py "'" ++ type_name v ++ py "' object is not subscriptable").

(** [d.get(key)] on the items of a dictionary with [str] keys *)
Fixpoint assoc {V} (key : pystr) (d : list (pystr * V)) : option V :=
  match d with
  | [] => None
  | (k, v) :: r => if bool_decide (k = key) then Some v else assoc key r
  end.

(** [len(v)] *)
Definition py_len (v : pyval) : outcome Z :=
  match v with
  | VStr s => Ok (Z.of_nat (length s))
  | VList l => Ok (Z.of_nat (length l))
  | VDict d => Ok (Z.of_nat (length d))
  | _ => Raised (Exn TypeError (py "object of type '" ++ type_name v ++ py "' has no len()"))
  end.

(** [v.split("T")] *)
Definition py_split_T (v : pyval) : outcome (list pystr) :=
  match v with
  | VStr s => Ok (split 84 s)
  | _ => Raised (Exn AttributeError (py "'" ++ type_name v ++ py "' object has no attribute 'split'"))
  end.

(** [l[1]] on a list *)
Definition list_item_1 (l : list pystr) : outcome pystr :=
  match l !! 1%nat with
  | Some x => Ok x
  | None => Raised (Exn IndexError (py "list index out of range"))
  end.

(** The [int] a dictionary key [v] is equal to, if any: [True == 1] and
    [2.0 == 2], and they hash alike.  Lists and dictionaries do not hash. *)
Definition int_key (v : pyval) : outcome (option Z) :=
  match v with
  | VBool b => Ok (Some (Z.b2z b))
  | VInt z => Ok (Some z)
  | VFloat (S754_zero _) => Ok (Some 0)
  | VFloat (S754_finite s m e) =>
    let z := if s then Zneg m else Zpos m in
    if 0 <=? e then Ok (Some (z * 2 ^ e))
    else if Zpos m mod 2 ^ (- e) =? 0 then Ok (Some (z / 2 ^ (- e)))
    else Ok None
  | VFloat _ | VNone | VStr _ => Ok None
  | VList _ | VDict _ =>
    Raised (Exn TypeError (py "unhashable type: '" ++ type_name v ++ py "'"))
  end.

Section builtins.
Context `{PyBuiltins}.

(** [repr(v)] *)
Fixpoint py_repr (v : pyval) : pystr :=
  match v with
  | VNone => py "None"
  | VBool true => py "True"
  | VBool false => py "False"
  | VInt z => int_str z
  | VFloat f => float_repr f
  | VStr s => str_repr s
  | VList l => py "[" ++ join (py ", ") (map py_repr l) ++ py "]"
  | VDict d =>
    py "{"
    ++ join (py ", ") (map (λ kv, str_repr (fst kv) ++ py ": " ++ py_repr (snd kv)) d)
    ++ py "}"
  end.

(** [f"{v}"], that is [str(v)] *)
Definition py_str (v : pyval) : pystr :=
  match v with
  | VStr s => s
  | _ => py_repr v
  end.

(** [v[key]] for a [str] key *)
Definition getitem (v : pyval) (key : pystr) : outcome pyval :=
  match v with
  | VDict d =>
    match assoc key d with
    | Some x => Ok x
    | None => Raised (Exn KeyError (str_repr key))
    end
  | VList _ => Raised (Exn TypeError (py "list indices must be integers or slices, not str"))
  | VStr _ => Raised (Exn TypeError (py "string indices must be integers, not 'str'"))
  | _ => Raised (not_subscriptable v)
  end.

(** [v[i]] for an index [i] that [range] produced *)
Definition getindex (v : pyval) (i : nat) : outcome pyval :=
  match v with
  | VList l =>
    match l !! i with
    | Some x => Ok x
    | None => Raised (Exn IndexError (py "list index out of range"))
    end
  | VStr s =>
    match s !! i with
    | Some c => Ok (VStr [c])
    | None => Raised (Exn IndexError (py "string index out of range"))
    end
  | VDict _ => Raised (Exn KeyError (int_str (Z.of_nat i)))
  | _ => Raised (not_subscriptable v)
  end.

End builtins.

(** ** The script *)

(** Lines 12 to 31: WMO weather interpretation codes and their icons. *)
Definition WMO_WEATHER_CODES : gmap Z pystr :=
  list_to_map [
    (0, py "☀️");
    (1, py "🌤️");
    (2, py "⛅");
    (3, py "☁️");
    (45, py "🌫️");
    (48, py "🌫️");
    (51, py "🌧️");
    (53, py "🌧️");
    (55, py "🌧️");
    (61, py "🌧️");
    (63, py "🌧️");
    (65, py "🌧️");
    (80, py "🌦️");
    (81, py "🌦️");
    (82, py "🌦️");
    (95, py "⛈️");
    (96, py "⛈️");
    (99, py "⛈️")
  ].

(** The local table of [get_description], lines 50 to 69. *)
Definition descriptions : gmap Z pystr :=
  list_to_map [
    (0, py "Clear sky");
    (1, py "Mainly clear");
    (2, py "Partly cloudy");
    (3, py "Overcast");
    (45, py "Fog");
    (48, py "Depositing rime fog");
    (51, py "Light drizzle");
    (53, py "Moderate drizzle");
    (55, py "Dense drizzle");
    (61, py "Slight rain");
    (63, py "Moderate rain");
    (65, py "Heavy rain");
    (80, py "Slight rain showers");
    (81, py "Moderate rain showers");
    (82, py "Violent rain showers");
    (95, py "Thunderstorm");
    (96, py "Thunderstorm with slight hail");
    (99, py "Thunderstorm with heavy hail")
  ].

(** [table.get(weather_code, fallback)] *)
Definition table_get (table : gmap Z pystr) (weather_code : pyval) (fallback : pystr)
  : outcome pystr :=
  k ← int_key weather_code;
  Ok (default fallback (k ≫= λ z, table !! z)).

Definition get_weather_icon (weather_code : pyval) : outcome pystr :=
  table_get WMO_WEATHER_CODES weather_code (py "❓").

Definition get_description (weather_code : pyval) : outcome pystr :=
  table_get descriptions weather_code (py "Unknown").

(** The globals that [__main__] sets and the functions read. *)
Record config := Config {
  temp_unit : pystr;
  time_format : pystr;
  windspeed_unit : pystr;
  show_icon : bool;
  show_location : bool;
  show_today_details : bool;
  FORECAST_DAYS : Z;
  get_location : pystr;
  lat : spec_float;
  lon : spec_float;
}.

(** The literal [0.621371]. *)
Definition mph_per_kmh : spec_float := decimal_to_float 621371 (-6).

(** The dictionary [data]: its items in insertion order. *)
Definition dict := list (pystr * pystr).

(** [d[key] = value]: a key already present keeps its place. *)
Fixpoint dict_set (key value : pystr) (d : dict) : dict :=
  match d with
  | [] => [(key, value)]
  | (k, v) :: r =>
    if bool_decide (k = key) then (k, value) :: r else (k, v) :: dict_set key value r
  end.

Section script.
Context `{PyBuiltins}.

Definition data_set (key value : pystr) : Py dict unit := λ data,
  (dict_set key value data, Ok ()).

Definition data_get (key : pystr) : Py dict pystr := λ data,
  match assoc key data with
  | Some v => (data, Ok v)
  | None => (data, Raised (Exn KeyError (str_repr key)))
  end.

(** [data[key] += more] *)
Definition data_append (key more : pystr) : Py dict unit :=
  (old ←← data_get key;
   data_set key (old ++ more))%py.

Definition get_temperature (cfg : config) (current_data : pyval) : outcome pystr :=
  if bool_decide (temp_unit cfg = py "c") then
    t ← getitem current_data (py "temperature_2m");
    Ok (py_str t ++ py "°C")
  else
    t ← getitem current_data (py "temperature_2m");
    t9 ← py_mul_int t 9;
    t95 ← py_truediv_int t9 5;
    temp_f ← py_add_int t95 32;
    s ← py_format_1f temp_f;
    Ok (s ++ py "°F").

Definition get_feels_like (cfg : config) (current_data : pyval) : outcome pystr :=
  temp ← getitem current_data (py "temperature_2m");
  humidity ← getitem current_data (py "relative_humidity_2m");
  humid ← py_gt_int humidity 70;
  feels_like ← (if humid : bool then py_add_int temp 2 else Ok temp);
  if bool_decide (temp_unit cfg = py "c") then
    s ← py_format_1f feels_like;
    Ok (s ++ py "°C")
  else
    f9 ← py_mul_int feels_like 9;
    f95 ← py_truediv_int f9 5;
    feels_like_f ← py_add_int f95 32;
    s ← py_format_1f feels_like_f;
    Ok (s ++ py "°F").

Definition get_wind_speed (cfg : config) (current_data : pyval) : outcome pystr :=
  if bool_decide (windspeed_unit cfg = py "km/h") then
    w ← getitem current_data (py "wind_speed_10m");
    Ok (py_str w ++ py " km/h")
  else
    w ← getitem current_data (py "wind_speed_10m");
    wind_mph ← py_mul_float w mph_per_kmh;
    s ← py_format_1f wind_mph;
    Ok (s ++ py " mph").

(** [daily[field][i].split("T")[1][:5]], lines 198 and 199 *)
Definition time_of_day (daily : pyval) (field : pystr) (i : nat) : outcome pystr :=
  column ← getitem daily field;
  stamp ← getindex column i;
  parts ← py_split_T stamp;
  hhmm ← list_item_1 parts;
  Ok (take 5 hhmm).

(** The body of the forecast loop, lines 186 to 205. *)
Definition forecast_day (cfg : config) (daily : pyval) (i : nat) : Py dict unit :=
  (date ←← py_eval (getitem daily (py "time") ≫= λ c, getindex c i);
   weather_desc ←← py_eval
     (getitem daily (py "weathercode") ≫= λ c, getindex c i ≫= get_description);
   weather_icon ←← py_eval
     (getitem daily (py "weathercode") ≫= λ c, getindex c i ≫= get_weather_icon);
   temps ←← py_eval
     (if bool_decide (temp_unit cfg = py "c") then
        tmax ← getitem daily (py "temperature_2m_max") ≫= λ c, getindex c i;
        tmin ← getitem daily (py "temperature_2m_min") ≫= λ c, getindex c i;
        Ok (py_str tmax ++ py "°C", py_str tmin ++ py "°C")
      else
        tmax ← getitem daily (py "temperature_2m_max") ≫= λ c, getindex c i;
        x9 ← py_mul_int tmax 9;
        x95 ← py_truediv_int x9 5;
        xf ← py_add_int x95 32;
        max_temp ← py_format_1f xf;
        tmin ← getitem daily (py "temperature_2m_min") ≫= λ c, getindex c i;
        n9 ← py_mul_int tmin 9;
        n95 ← py_truediv_int n9 5;
        nf ← py_add_int n95 32;
        min_temp ← py_format_1f nf;
        Ok (max_temp ++ py "°F", min_temp ++ py "°F"));
   sunrise ←← py_eval (time_of_day daily (py "sunrise") i);
   sunset ←← py_eval (time_of_day daily (py "sunset") i);
   let day_label :=
     if bool_decide (i = 0%nat) then py "Today"
     else py "Day " ++ int_str (Z.of_nat i + 1) in
   data_append (py "tooltip")
     ([newline] ++ py "<b>" ++ day_label ++ py " (" ++ py_str date ++ py ")</b>" ++ [newline]) ;;;
   data_append (py "tooltip")
     (weather_icon ++ py " " ++ weather_desc ++ [newline]) ;;;
   data_append (py "tooltip")
     (py "⬆️ " ++ temps.1 ++ py " ⬇️ " ++ temps.2 ++ [newline]) ;;;
   data_append (py "tooltip")
     (py "🌅 " ++ sunrise ++ py " 🌇 " ++ sunset ++ [newline]))%py.

(** The second [try] block, lines 167 to 205. *)
Definition process (cfg : config) (weather : pyval) : Py dict unit :=
  (current ←← py_eval (getitem weather (py "current"));
   daily ←← py_eval (getitem weather (py "daily"));
   text ←← py_eval (get_temperature cfg current);
   data_set (py "text") text ;;;
   (if show_icon cfg then
      icon ←← py_eval (getitem current (py "weathercode") ≫= get_weather_icon);
      text ←← data_get (py "text");
      data_set (py "text") (icon ++ py " " ++ text)
    else py_ret ()) ;;;
   (if show_location cfg then data_append (py "text") (py " | Paris, FR")
    else py_ret ()) ;;;
   headline ←← py_eval
     (desc ← getitem current (py "weathercode") ≫= get_description;
      temp ← get_temperature cfg current;
      Ok (py "<b>" ++ desc ++ py " " ++ temp ++ py "</b>" ++ [newline]));
   data_set (py "tooltip") headline ;;;
   feels ←← py_eval (get_feels_like cfg current);
   data_append (py "tooltip") (py "Feels like: " ++ feels ++ [newline]) ;;;
   wind ←← py_eval (get_wind_speed cfg current);
   data_append (py "tooltip") (py "Wind: " ++ wind ++ [newline]) ;;;
   humidity ←← py_eval (getitem current (py "relative_humidity_2m"));
   data_append (py "tooltip") (py "Humidity: " ++ py_str humidity ++ py "%" ++ [newline]) ;;;
   days ←← py_eval (getitem daily (py "time") ≫= py_len);
   py_for (seq 0 (Z.to_nat (Z.min (FORECAST_DAYS cfg) days))) (forecast_day cfg daily))%py.

End script.

(** ** [json.dumps] of a dictionary of strings *)

Definition hex_digit (n : N) : N := (if n <? 10 then 48 + n else 87 + n)%N.

Definition hex4 (c : N) : pystr :=
  [hex_digit (c / 4096 mod 16); hex_digit (c / 256 mod 16);
   hex_digit (c / 16 mod 16); hex_digit (c mod 16)]%N.

(** One character inside a JSON string, with [ensure_ascii] (the default):
    only printable ASCII is written as it is. *)
Definition json_escape (c : N) : pystr :=
  (if c =? 34 then [92; 34]
   else if c =? 92 then [92; 92]
   else if c =? 10 then [92; 110]
   else if c =? 13 then [92; 114]
   else if c =? 9 then [92; 116]
   else if c =? 12 then [92; 102]
   else if c =? 8 then [92; 98]
   else if (32 <=? c) && (c <=? 126) then [c]
   else if c <? 0x10000 then [92; 117] ++ hex4 c
   else
     let v := c - 0x10000 in
     [92; 117] ++ hex4 (0xD800 + v / 1024) ++ [92; 117] ++ hex4 (0xDC00 + v mod 1024))%N.

Definition json_string (s : pystr) : pystr :=
  [dquote] ++ mjoin (json_escape <$> s) ++ [dquote].

Definition json_dumps (data : dict) : pystr :=
  py "{"
  ++ join (py ", ") ((λ kv, json_string (fst kv) ++ py ": " ++ json_string (snd kv)) <$> data)
  ++ py "}".

(** ** The main script *)

(** What one run writes and how it ends. *)
Record run := Run { stdout : pystr; stderr : pystr; exit_code : Z }.

(** The answer of the server as the script uses it: what
    [response.raise_for_status()] raises, if anything, and what
    [response.json()] returns or raises. *)
Record response := Response {
  raise_for_status : option exn;
  json : outcome pyval;
}.

(** What the script reads from outside: files, and [requests.get(url,
    timeout=10)]. *)
Record world := World {
  fs : filesystem;
  requests_get : pystr → outcome response;
}.

(** [os.path.join(a, *parts)] on POSIX, for [a = os.environ.get("HOME")]. *)
Definition os_path_join (a : option pystr) (parts : list pystr) : outcome pystr :=
  match a with
  | None =>
    Raised (Exn TypeError (py "expected str, bytes or os.PathLike object, not NoneType"))
  | Some a =>
    Ok (foldl (λ path b,
          if startswith (py "/") b then b
          else if bool_decide (path = []) || bool_decide (last path = Some 47%N)
          then path ++ b
          else path ++ py "/" ++ b) a parts)
  end.

(** [os.getenv(name, fallback)] *)
Definition getenv (env : gmap pystr pystr) (name fallback : pystr) : pystr :=
  default fallback (env !! name).

(** The literals [48.8566] and [2.3522]. *)
Definition default_lat : spec_float := decimal_to_float 488566 (-4).
Definition default_lon : spec_float := decimal_to_float 23522 (-4).

Definition bool_str (b : bool) : pystr := if b then py "True" else py "False".

(** [print(label, value, file=sys.stderr)] *)
Definition debug_line (label value : pystr) : pystr :=
  label ++ py " " ++ value ++ [newline].

Section main.
Context `{PyBuiltins}.

(** [os.getenv(name, "True").lower() in ("true", "1", "t", "y", "yes")] *)
Definition flag (env : gmap pystr pystr) (name : pystr) : bool :=
  bool_decide (str_lower (getenv env name (py "True"))
               ∈ [py "true"; py "1"; py "t"; py "y"; py "yes"]).

(** [lat, lon = map(float, s.split(","))]: the items are converted as the
    assignment asks for them, a third one to see that there is none. *)
Definition unpack_location (s : pystr) : outcome (spec_float * spec_float) :=
  let float (x : pystr) : outcome spec_float :=
    match float_of_str x with
    | Some f => Ok f
    | None => Raised (Exn ValueError (py "could not convert string to float: " ++ str_repr x))
    end in
  match split 44 s with
  | [] => Raised (Exn ValueError (py "not enough values to unpack (expected 2, got 0)"))
  | a :: r =>
    x ← float a;
    match r with
    | [] => Raised (Exn ValueError (py "not enough values to unpack (expected 2, got 1)"))
    | b :: r' =>
      y ← float b;
      match r' with
      | [] => Ok (x, y)
      | c :: _ =>
        _ ← float c;
        Raised (Exn ValueError (py "too many values to unpack (expected 2)"))
      end
    end
  end.

(** Lines 109 to 135: the settings, from the environment. *)
Definition configure (env : gmap pystr pystr) : config :=
  let temp_unit := str_lower (getenv env (py "WEATHER_TEMPERATURE_UNIT") (py "c")) in
  let time_format := str_lower (getenv env (py "WEATHER_TIME_FORMAT") (py "12h")) in
  let windspeed_unit := str_lower (getenv env (py "WEATHER_WINDSPEED_UNIT") (py "km/h")) in
  let show_icon := flag env (py "WEATHER_SHOW_ICON") in
  let show_location := flag env (py "WEATHER_SHOW_LOCATION") in
  let show_today_details := flag env (py "WEATHER_SHOW_TODAY_DETAILS") in
  let FORECAST_DAYS :=
    match int_of_str (getenv env (py "WEATHER_FORECAST_DAYS") (py "3")) with
    | Some n => n
    | None => 3
    end in
  let get_location := getenv env (py "WEATHER_LOCATION") (py "48.8566,2.3522") in
  let latlon :=
    match unpack_location get_location with
    | Ok p => p
    | Raised _ => (default_lat, default_lon)
    end in
  let temp_unit :=
    if bool_decide (temp_unit ∉ [py "c"; py "f"]) then py "c" else temp_unit in
  let time_format :=
    if bool_decide (time_format ∉ [py "12h"; py "24h"]) then py "12h" else time_format in
  let windspeed_unit :=
    if bool_decide (windspeed_unit ∉ [py "km/h"; py "mph"]) then py "km/h"
    else windspeed_unit in
  let FORECAST_DAYS :=
    if bool_decide (¬ (1 ≤ FORECAST_DAYS < 4)) then 3 else FORECAST_DAYS in
  Config temp_unit time_format windspeed_unit show_icon show_location
    show_today_details FORECAST_DAYS get_location latlon.1 latlon.2.

(** Lines 138 to 145 *)
Definition debug_prints (cfg : config) : pystr :=
  debug_line (py "DEBUG: temp_unit:") (temp_unit cfg)
  ++ debug_line (py "DEBUG: time_format:") (time_format cfg)
  ++ debug_line (py "DEBUG: windspeed_unit:") (windspeed_unit cfg)
  ++ debug_line (py "DEBUG: show_icon:") (bool_str (show_icon cfg))
  ++ debug_line (py "DEBUG: show_location:") (bool_str (show_location cfg))
  ++ debug_line (py "DEBUG: show_today_details:") (bool_str (show_today_details cfg))
  ++ debug_line (py "DEBUG: FORECAST_DAYS:") (int_str (FORECAST_DAYS cfg))
  ++ debug_line (py "DEBUG: get_location:") (get_location cfg).

(** Lines 149 to 154 *)
Definition URL (cfg : config) : pystr :=
  py "https://api.open-meteo.com/v1/forecast?"
  ++ py "latitude=" ++ float_repr (lat cfg) ++ py "&longitude=" ++ float_repr (lon cfg)
  ++ py "&current=temperature_2m,weathercode,wind_speed_10m,relative_humidity_2m"
  ++ py "&daily=weathercode,temperature_2m_max,temperature_2m_min,sunrise,sunset"
  ++ py "&timezone=auto".

(** The first [try] block, lines 157 to 159. *)
Definition fetch (w : world) (cfg : config) : outcome pyval :=
  response ← requests_get w (URL cfg);
  _ ← match raise_for_status response with
      | Some e => Raised e
      | None => Ok ()
      end;
  json response.

(** An exception nothing catches: the traceback, and exit status 1. *)
Definition uncaught (e : exn) : run := Run [] (format_exc e) 1.

(** Lines 147 to 213, once the settings are known. *)
Definition report (w : world) (cfg : config) : run :=
  let log := debug_prints cfg in
  let data : dict := [] in
  match fetch w cfg with
  | Raised e =>
    let data := dict_set (py "text") (py "❓ Weather Error") data in
    let data :=
      dict_set (py "tooltip") (py "Failed to get weather data: " ++ exn_str e) data in
    Run (json_dumps data ++ [newline]) log 1
  | Ok weather =>
    match process cfg weather data with
    | (data, Ok _) => Run (json_dumps data ++ [newline]) log 0
    | (data, Raised e) =>
      let log := log ++ py "ERROR: " ++ format_exc e ++ [newline] in
      let data := dict_set (py "text") (py "❓ Processing Error") data in
      let data :=
        dict_set (py "tooltip") (py "Failed to process weather data: " ++ exn_str e) data in
      Run (json_dumps data ++ [newline]) log 0
    end
  end.

(** Lines 105 to 135: the two environment files are loaded, the second one
    over the first, and the settings are read.  Without [HOME],
    [os.path.join] raises. *)
Definition startup (w : world) (env : gmap pystr pystr) : outcome config :=
  staterc ← os_path_join (env !! py "HOME")
              [py ".rlocal"; py "state"; py "hyde"; py "staterc"];
  let env := (load_env_file (fs w) staterc env).1 in
  config_file ← os_path_join (env !! py "HOME")
                  [py ".local"; py "state"; py "hyde"; py "config"];
  let env := (load_env_file (fs w) config_file env).1 in
  Ok (configure env).

(** The script, run in the environment [env]. *)
Definition main (w : world) (env : gmap pystr pystr) : run :=
  match startup w env with
  | Raised e => uncaught e
  | Ok cfg => report w cfg
  end.

End main.

(** ** An implementation of the interface: CPython 3.11 on ASCII text

    It evaluates the script on concrete inputs.  On text outside ASCII it
    leaves characters as they are, where CPython consults its Unicode
    database; and its traceback names the exception without the frames,
    which depend on where the script is installed. *)
Module CPython.

Definition is_digit (c : N) : bool := ((48 <=? c) && (c <=? 57))%N.

(** The characters [int] and [float] skip around an ASCII numeral. *)
Definition c_isspace (c : N) : bool := ((9 <=? c) && (c <=? 13) || (c =? 32))%N.

Definition is_upper (c : N) : bool := ((65 <=? c) && (c <=? 90))%N.
Definition to_lower (c : N) : N := (if is_upper c then c + 32 else c)%N.

Definition lower (s : pystr) : pystr := to_lower <$> s.

Definition hex2 (c : N) : pystr := [hex_digit (c / 16 mod 16); hex_digit (c mod 16)]%N.

Definition repr (s : pystr) : pystr :=
  let quote : N :=
    if bool_decide (39%N ∈ s) && negb (bool_decide (dquote ∈ s)) then dquote else 39%N in
  let escape (c : N) : pystr :=
    (if (c =? quote) || (c =? 92) then [92; c]
     else if c =? 9 then [92; 116]
     else if c =? 10 then [92; 110]
     else if c =? 13 then [92; 114]
     else if (c <? 32) || (c =? 127) then [92; 120] ++ hex2 c
     else [c])%N in
  [quote] ++ mjoin (escape <$> s) ++ [quote].

(** Every underscore stands between two digits. *)
Fixpoint underscores_ok (prev : option N) (s : pystr) : bool :=
  match s with
  | [] => true
  | c :: r =>
    (if (c =? 95)%N
     then from_option is_digit false prev && from_option is_digit false (head r)
     else true)
    && underscores_ok (Some c) r
  end.

Definition without_underscores (s : pystr) : pystr := filter (λ c, c ≠ 95%N) s.

Definition digits_value (ds : pystr) : Z :=
  foldl (λ acc c, acc * 10 + (Z.of_N c - 48)) 0 ds.

(** A sign, and what follows it. *)
Definition split_sign (s : pystr) : bool * pystr :=
  match s with
  | 45%N :: r => (true, r)
  | 43%N :: r => (false, r)
  | _ => (false, s)
  end.

Fixpoint span_digits (s : pystr) : pystr * pystr :=
  match s with
  | c :: r =>
    if is_digit c then let '(ds, rest) := span_digits r in (c :: ds, rest)
    else ([], s)
  | [] => ([], [])
  end.

(** [sys.get_int_max_str_digits()] *)
Definition int_max_str_digits : nat := 4300.

Definition int_of (s : pystr) : option Z :=
  let s := strip_with c_isspace s in
  if negb (underscores_ok None s) then None else
  let '(neg, body) := split_sign (without_underscores s) in
  match span_digits body with
  | (d :: ds, []) =>
    if bool_decide (length (d :: ds) ≤ int_max_str_digits)%nat
    then Some (if neg then - digits_value (d :: ds) else digits_value (d :: ds))
    else None
  | _ => None
  end.

(** The exponent of a numeral: nothing, or [e], a sign and digits. *)
Definition exponent_of (s : pystr) : option Z :=
  match s with
  | [] => Some 0
  | c :: r =>
    if bool_decide (to_lower c = 101%N) then
      let '(neg, body) := split_sign r in
      match span_digits body with
      | (d :: ds, []) => Some (if neg then - digits_value (d :: ds) else digits_value (d :: ds))
      | _ => None
      end
    else None
  end.

Definition float_of (s : pystr) : option spec_float :=
  let s := strip_with c_isspace s in
  if negb (underscores_ok None s) then None else
  let '(neg, body) := split_sign (without_underscores s) in
  let word := lower body in
  if bool_decide (word = py "inf") || bool_decide (word = py "infinity")
  then Some (S754_infinity neg)
  else if bool_decide (word = py "nan") then Some S754_nan
  else
    let '(ip, r1) := span_digits body in
    let '(fp, r2) :=
      match r1 with
      | 46%N :: r => span_digits r
      | _ => ([], r1)
      end in
    match ip ++ fp with
    | [] => None
    | ds =>
      ex ← exponent_of r2;
      Some (match decimal_to_float (digits_value ds) (ex - Z.of_nat (length fp)) with
            | S754_zero _ => S754_zero neg
            | S754_infinity _ => S754_infinity neg
            | S754_finite _ m e => S754_finite neg m e
            | S754_nan => S754_nan
            end)
    end.

Definition class_name (c : exn_class) : pystr :=
  match c with
  | KeyError => py "KeyError"
  | IndexError => py "IndexError"
  | TypeError => py "TypeError"
  | ValueError => py "ValueError"
  | OverflowError => py "OverflowError"
  | AttributeError => py "AttributeError"
  | ZeroDivisionError => py "ZeroDivisionError"
  | OSError => py "OSError"
  | UnicodeDecodeError => py "UnicodeDecodeError"
  | RequestException => py "requests.exceptions.RequestException"
  end.

Definition traceback (e : exn) : pystr :=
  py "Traceback (most recent call last):" ++ [newline]
  ++ class_name (exn_class_of e) ++ py ": " ++ exn_str e ++ [newline].

#[global] Instance builtins : PyBuiltins := {
  str_lower := lower;
  str_repr := repr;
  int_of_str := int_of;
  float_of_str := float_of;
  format_exc := traceback;
}.

End CPython.

(** * The words of the specification

    What the specification speaks of and the script has no name for:
    the kinds of line of an environment file, the table of weather codes,
    the conversion to Fahrenheit, the lines and blocks of the tooltip. *)

(** ** Lines of an environment file *)

(** A blank line: white space only. *)
Definition blank (line : pystr) : Prop := Forall (λ c, isspace c = true) line.

(** A comment line: it starts with [#]. *)
Definition comment (line : pystr) : Prop := startswith (py "#") line = true.

(** A character of a variable's name: a letter, a digit or an underscore. *)
Definition name_char (c : N) : bool :=
  ((48 <=? c) && (c <=? 57) || (65 <=? c) && (c <=? 90)
   || (97 <=? c) && (c <=? 122) || (c =? 95))%N.

Definition is_name (key : pystr) : Prop :=
  key ≠ [] ∧ Forall (λ c, name_char c = true) key.

(** The text of a value: it has no NUL, and the white space that ends the
    line is not part of it. *)
Definition is_value (value : pystr) : Prop :=
  (NUL ∉ value) ∧ (∀ c, last value = Some c → isspace c = false).

(** The line [KEY=VALUE] or [export KEY=VALUE], with the white space
    (a newline, usually) that ends it. *)
Definition assignment (exported : bool) (key value ending : pystr) : pystr :=
  (if exported then py "export " else []) ++ key ++ [61%N] ++ value ++ ending.

(** A value without the double quotes around it. *)
Definition unquoted (value : pystr) : pystr := strip_chars [dquote] value.

(** A line parses when the loop body finishes on it, and fails when the
    loop body raises on it and leaves the environment alone; neither depends
    on the environment. *)
Definition parses (line : pystr) : Prop :=
  ∀ env, (load_env_line line env).2 = Ok ().
Definition fails (line : pystr) : Prop :=
  ∀ env, ∃ e, load_env_line line env = (env, Raised e).

(** ** Weather codes *)

(** The codes of the table, as the specification lists them. *)
Definition weather_codes : list Z :=
  [0; 1; 2; 3; 45; 48; 51; 53; 55; 61; 63; 65; 80; 81; 82; 95; 96; 99].

(** What each code is shown as: its icon and its description. *)
Definition presentation : list (Z * (pystr * pystr)) :=
  [ (0, (py "☀️", py "Clear sky"));
    (1, (py "🌤️", py "Mainly clear"));
    (2, (py "⛅", py "Partly cloudy"));
    (3, (py "☁️", py "Overcast"));
    (45, (py "🌫️", py "Fog"));
    (48, (py "🌫️", py "Depositing rime fog"));
    (51, (py "🌧️", py "Light drizzle"));
    (53, (py "🌧️", py "Moderate drizzle"));
    (55, (py "🌧️", py "Dense drizzle"));
    (61, (py "🌧️", py "Slight rain"));
    (63, (py "🌧️", py "Moderate rain"));
    (65, (py "🌧️", py "Heavy rain"));
    (80, (py "🌦️", py "Slight rain showers"));
    (81, (py "🌦️", py "Moderate rain showers"));
    (82, (py "🌦️", py "Violent rain showers"));
    (95, (py "⛈️", py "Thunderstorm"));
    (96, (py "⛈️", py "Thunderstorm with slight hail"));
    (99, (py "⛈️", py "Thunderstorm with heavy hail")) ].

(** ** Temperatures and the tooltip *)

(** The conversion of the specification, [f = c * 9 / 5 + 32], in the
    arithmetic of the interpreter. *)
Definition celsius_to_fahrenheit (c : pyval) : outcome pyval :=
  c9 ← py_mul_int c 9;
  c95 ← py_truediv_int c9 5;
  py_add_int c95 32.

(** A number with one decimal, followed by its unit. *)
Definition one_decimal (v : pyval) (unit : pystr) : outcome pystr :=
  s ← py_format_1f v;
  Ok (s ++ unit).

(** A Celsius value shown in Fahrenheit. *)
Definition fahrenheit_text (c : pyval) : outcome pystr :=
  f ← celsius_to_fahrenheit c;
  one_decimal f (py "°F").

Section vocabulary.
Context `{PyBuiltins}.

(** The feels-like value shown in the unit of the settings. *)
Definition feels_like_text (cfg : config) (feels_like : pyval) : outcome pystr :=
  if bool_decide (temp_unit cfg = py "c") then one_decimal feels_like (py "°C")
  else fahrenheit_text feels_like.

(** A daily temperature shown in the unit of the settings. *)
Definition temperature_text (cfg : config) (t : pyval) : outcome pystr :=
  if bool_decide (temp_unit cfg = py "c") then Ok (py_str t ++ py "°C")
  else fahrenheit_text t.

(** [daily[field][i]] *)
Definition day_item (daily : pyval) (field : pystr) (i : nat) : outcome pyval :=
  getitem daily field ≫= λ column, getindex column i.

(** The label of day [i] of the forecast. *)
Definition day_label (i : nat) : pystr :=
  match i with
  | O => py "Today"
  | S _ => py "Day " ++ int_str (Z.of_nat i + 1)
  end.

(** The block of the tooltip for day [i]: four lines after an empty one. *)
Definition forecast_text (cfg : config) (daily : pyval) (i : nat) : outcome pystr :=
  date ← day_item daily (py "time") i;
  desc ← day_item daily (py "weathercode") i ≫= get_description;
  icon ← day_item daily (py "weathercode") i ≫= get_weather_icon;
  max_temp ← day_item daily (py "temperature_2m_max") i ≫= temperature_text cfg;
  min_temp ← day_item daily (py "temperature_2m_min") i ≫= temperature_text cfg;
  sunrise ← time_of_day daily (py "sunrise") i;
  sunset ← time_of_day daily (py "sunset") i;
  Ok (([newline] ++ py "<b>" ++ day_label i ++ py " (" ++ py_str date ++ py ")</b>" ++ [newline])
      ++ (icon ++ py " " ++ desc ++ [newline])
      ++ (py "⬆️ " ++ max_temp ++ py " ⬇️ " ++ min_temp ++ [newline])
      ++ (py "🌅 " ++ sunrise ++ py " 🌇 " ++ sunset ++ [newline])).

(** The text line: the icon if it is shown, the temperature, the place if
    it is shown. *)
Definition text_line (cfg : config) (icon temperature : pystr) : pystr :=
  (if show_icon cfg then icon ++ py " " else [])
  ++ temperature
  ++ (if show_location cfg then py " | Paris, FR" else []).

(** The first four lines of the tooltip, about the current weather. *)
Definition current_text (cfg : config) (current : pyval) : outcome pystr :=
  desc ← getitem current (py "weathercode") ≫= get_description;
  temperature ← get_temperature cfg current;
  feels ← get_feels_like cfg current;
  wind ← get_wind_speed cfg current;
  humidity ← getitem current (py "relative_humidity_2m");
  Ok (py "<b>" ++ desc ++ py " " ++ temperature ++ py "</b>" ++ [newline]
      ++ py "Feels like: " ++ feels ++ [newline]
      ++ py "Wind: " ++ wind ++ [newline]
      ++ py "Humidity: " ++ py_str humidity ++ py "%" ++ [newline]).

End vocabulary.

(** The settings, for another place. *)
Definition relocated (cfg : config) (place : pystr) (la lo : spec_float) : config :=
  Config (temp_unit cfg) (time_format cfg) (windspeed_unit cfg) (show_icon cfg)
    (show_location cfg) (show_today_details cfg) (FORECAST_DAYS cfg) place la lo.

(** ** The dictionary [data] while the payload is processed *)

(** [data] once the text is set: the text alone, or the text and the
    tooltip, in that order. *)
Definition text_set (data : dict) : Prop :=
  ∃ text rest,
    data = (py "text", text) :: rest
    ∧ (rest = [] ∨ ∃ tip, rest = [(py "tooltip", tip)]).

(** A block keeps the shape of [data], however it ends. *)
Definition keeps {A} (m : Py dict A) : Prop :=
  ∀ data data' r, text_set data → m data = (data', r) → text_set data'.

(** ** Sample inputs *)

(** The current weather of the specification's example: code 0, 20 degrees,
    humidity 50. *)
Definition sample_current : pyval :=
  VDict [ (py "temperature_2m", VInt 20);
          (py "weathercode", VInt 0);
          (py "wind_speed_10m", VFloat (decimal_to_float 105 (-1)));
          (py "relative_humidity_2m", VInt 50) ].

(** Two days of forecast. *)
Definition sample_daily : pyval :=
  VDict [ (py "time", VList [VStr (py "2024-05-01"); VStr (py "2024-05-02")]);
          (py "weathercode", VList [VInt 0; VInt 61]);
          (py "temperature_2m_max",
           VList [VFloat (decimal_to_float 215 (-1)); VInt 18]);
          (py "temperature_2m_min",
           VList [VInt 11; VFloat (decimal_to_float 95 (-1))]);
          (py "sunrise", VList [VStr (py "2024-05-01T06:31"); VStr (py "2024-05-02T06:29")]);
          (py "sunset", VList [VStr (py "2024-05-01T21:07"); VStr (py "2024-05-02T21:08")]) ].

Definition sample_weather : pyval :=
  VDict [(py "current", sample_current); (py "daily", sample_daily)].

(** The settings of an empty environment: Celsius, km/h, icon and place
    shown, three days. *)
Definition default_settings : config := configure ∅.

(** An environment with [HOME] and nothing else. *)
Definition home_only : gmap pystr pystr := {[ py "HOME" := py "/home/u" ]}.

Definition no_file : filesystem :=
  λ _, Raised (Exn OSError (py "[Errno 2] No such file or directory")).

(** No environment file, and a request that times out. *)
Definition offline : world :=
  World no_file (λ _, Raised (Exn RequestException (py "timed out"))).

(** No environment file, and a server that answers with an empty object. *)
Definition empty_answer : world :=
  World no_file (λ _, Ok (Response None (Ok (VDict [])))).

(** No environment file, and a server that answers with the sample. *)
Definition sample_world : world :=
  World no_file (λ _, Ok (Response None (Ok sample_weather))).

(** ** What loading an environment file amounts to *)

(** [os.environ[name] = value] for each pair of the list, in order. *)
Definition assign_all (env : gmap pystr pystr) (assignments : list (pystr * pystr))
  : gmap pystr pystr :=
  foldl (λ env kv, <[kv.1 := kv.2]> env) env assignments.

(** Two environments that differ in the variable [name] at most. *)
Definition agree_except (name : pystr) (env1 env2 : gmap pystr pystr) : Prop :=
  ∀ k, k ≠ name → env1 !! k = env2 !! k.

(** Settings that differ only in what the report never reads: the time
    format, the switch for today's details, and the text of the location. *)
Definition same_report (cfg1 cfg2 : config) : Prop :=
  temp_unit cfg1 = temp_unit cfg2
  ∧ windspeed_unit cfg1 = windspeed_unit cfg2
  ∧ show_icon cfg1 = show_icon cfg2
  ∧ show_location cfg1 = show_location cfg2
  ∧ FORECAST_DAYS cfg1 = FORECAST_DAYS cfg2
  ∧ lat cfg1 = lat cfg2
  ∧ lon cfg1 = lon cfg2.

(** ** Numbers as they should read *)

(** The fraction [num / den], for [0 < den], written with one decimal:
    rounded to the nearest tenth, ties to even, with the sign of the
    fraction even when it rounds to zero. *)
Definition one_decimal_exact (num den : Z) : pystr :=
  let tenths := round_half_even (Z.abs num * 10) den in
  sign_str (num <? 0) ++ int_str (tenths / 10) ++ py "." ++ int_str (tenths mod 10).

(** A reading with one decimal, [k / 10], as the JSON parser delivers it:
    the binary64 number nearest to it. *)
Definition reading (k : Z) : pyval := VFloat (decimal_to_float k (-1)).

(** A character that is written as it is on one line: printable ASCII. *)
Definition printable (c : N) : Prop := (32 ≤ c ≤ 126)%N.

(** A value that [response.json()] can deliver: the parser reads no
    integer of more than 4300 digits ([int] refuses it), so no such integer
    is ever converted back to text. *)
Fixpoint deliverable (v : pyval) : bool :=
  match v with
  | VInt z => Z.abs z <? 10 ^ 4300
  | VList l => forallb deliverable l
  | VDict d => forallb (λ kv, deliverable (snd kv)) d
  | _ => true
  end.

(** A value that is a number to the interpreter. *)
Definition is_number (v : pyval) : bool :=
  match v with
  | VBool _ | VInt _ | VFloat _ => true
  | _ => false
  end.

(** Is [s] the text that [o] gives? *)
Definition shows (o : outcome pystr) (s : pystr) : bool :=
  match o with
  | Ok t => bool_decide (t = s)
  | Raised _ => false
  end.

(** The two degrees that are felt in humid air, in tenths of a degree. *)
Definition felt_tenths (humid : bool) : Z := if humid then 20 else 0.

(** * Properties *)

(** ** Blocks of statements *)

Lemma py_for_app {S A} (l1 l2 : list A) (body : A → Py S unit) (s : S) :
  py_for (l1 ++ l2) body s =
  match py_for l1 body s with
  | (s', Ok _) => py_for l2 body s'
  | (s', Raised e) => (s', Raised e)
  end.
Proof.
  revert s. induction l1 as [|x l1 IH]; intros s; simpl; [done|].
  unfold py_bind. destruct (body x s) as [s' [[]|e]]; [apply IH | done].
Qed.

(** ** Text *)

Lemma elem_of_lstrip_with p (s : pystr) c : c ∈ lstrip_with p s → c ∈ s.
Proof.
  induction s as [|x s IH]; simpl; [done|].
  destruct (p x); [|done]. intros. right. auto.
Qed.

Lemma elem_of_strip_with p (s : pystr) c : c ∈ strip_with p s → c ∈ s.
Proof.
  unfold strip_with, rstrip_with. rewrite elem_of_reverse.
  intros Hc%elem_of_lstrip_with. rewrite elem_of_reverse in Hc.
  by apply elem_of_lstrip_with in Hc.
Qed.

Lemma split1_no_sep sep (s : pystr) : sep ∉ s → split1 sep s = [s].
Proof.
  induction s as [|c s IH]; simpl; [done|].
  intros Hsep. apply not_elem_of_cons in Hsep as [Hne Hsep].
  destruct (N.eqb_spec c sep) as [->|_]; [done|]. by rewrite IH.
Qed.

(** ** Environment files *)

(** A line that raises leaves the environment as it was. *)
Lemma load_env_line_raised line env env' e :
  load_env_line line env = (env', Raised e) → env' = env.
Proof.
  unfold load_env_line, os_environ_set, py_raise, py_ret.
  repeat case_match; naive_solver.
Qed.

(** Loading a readable file whose lines all parse runs the loop to its end. *)
Lemma load_env_file_parsed fs path env lines :
  fs path = Ok (File lines None) →
  Forall parses lines →
  load_env_file fs path env = (foldl (λ env l, (load_env_line l env).1) env lines, Ok ()).
Proof.
  intros Hfs Hall. unfold load_env_file, try_except_pass, load_env_body, py_bind, py_eval.
  rewrite Hfs. simpl.
  assert (py_for lines load_env_line env
          = (foldl (λ env l, (load_env_line l env).1) env lines, Ok ())) as ->; [|done].
  clear Hfs. revert env. induction Hall as [|l lines Hl _ IH]; intros env; simpl; [done|].
  unfold py_bind. specialize (Hl env).
  destruct (load_env_line l env) as [env1 [[]|e]]; simpl in *; [apply IH | done].
Qed.

(** C10: [load_env_file] never raises, whatever the path names and whatever
    the file holds; and when a line fails to parse (a line with text but no
    [=] is one), loading stops there without undoing anything: the result is
    that of loading the lines before it, so what they set stays set and the
    rest of the file is ignored. *)
Theorem load_env_file_never_raises_not_atomic :
  (∀ fs path env, (load_env_file fs path env).2 = Ok ())
  ∧ (∀ fs fs' path env before bad rest err,
       fs path = Ok (File (before ++ bad :: rest) err) →
       fs' path = Ok (File before None) →
       Forall parses before →
       fails bad →
       load_env_file fs path env = load_env_file fs' path env)
  ∧ (∀ line,
       truthy (strip line) = true → startswith (py "#") line = false → 61%N ∉ line →
       fails line).
Proof.
  split; [|split].
  - intros fs path env. unfold load_env_file, try_except_pass.
    by destruct (load_env_body fs path env).
  - intros fs fs' path env before bad rest err Hfs Hfs' Hbefore Hbad.
    rewrite (load_env_file_parsed fs' path env before Hfs' Hbefore).
    pose proof (load_env_file_parsed fs' path env before Hfs' Hbefore) as Hrun.
    unfold load_env_file, try_except_pass, load_env_body, py_bind, py_eval in *.
    rewrite Hfs' in Hrun. rewrite Hfs. simpl in *.
    rewrite py_for_app.
    destruct (py_for before load_env_line env) as [env1 [[]|e]] eqn:Hloop.
    + simpl. unfold py_bind.
      destruct (Hbad env1) as [e ->]. simpl in Hrun. by inversion Hrun.
    + simpl in Hrun. by inversion Hrun.
  - intros line Htext Hcomment Hno_eq env.
    unfold load_env_line. rewrite Htext, Hcomment. cbn [negb andb].
    rewrite split1_no_sep; [by eexists|].
    intros Hin%elem_of_strip_with. apply Hno_eq.
    destruct (startswith (py "export ") line); [|done].
    by eapply subseteq_drop.
Qed.

Lemma lstrip_with_all p (ws s : pystr) :
  Forall (λ c, p c = true) ws → lstrip_with p (ws ++ s) = lstrip_with p s.
Proof. induction 1 as [|c ws Hc _ IH]; simpl; [done|]. by rewrite Hc. Qed.

Lemma lstrip_with_keeps p c (s : pystr) :
  p c = false → lstrip_with p (c :: s) = c :: s.
Proof. intros Hc. simpl. by rewrite Hc. Qed.

Lemma rstrip_with_all p (s ws : pystr) :
  Forall (λ c, p c = true) ws → rstrip_with p (s ++ ws) = rstrip_with p s.
Proof.
  intros Hws. unfold rstrip_with. rewrite reverse_app, lstrip_with_all; [done|].
  by apply Forall_reverse.
Qed.

Lemma rstrip_with_keeps p (s : pystr) :
  (∀ c, last s = Some c → p c = false) → rstrip_with p s = s.
Proof.
  intros Hlast. unfold rstrip_with.
  destruct s as [|x s _] using rev_ind; [done|].
  rewrite reverse_snoc, lstrip_with_keeps.
  - by rewrite <-reverse_snoc, reverse_involutive.
  - apply Hlast, last_snoc.
Qed.

(** What [strip] leaves of text between white space. *)
Lemma strip_with_core p c (s ws : pystr) :
  p c = false → (∀ x, last (c :: s) = Some x → p x = false) →
  Forall (λ x, p x = true) ws →
  strip_with p (c :: s ++ ws) = c :: s.
Proof.
  intros Hc Hlast Hws. unfold strip_with.
  rewrite lstrip_with_keeps by done.
  change (c :: s ++ ws) with ((c :: s) ++ ws).
  rewrite rstrip_with_all by done. by apply rstrip_with_keeps.
Qed.

Lemma strip_blank (line : pystr) : blank line → strip line = [].
Proof.
  intros Hb. unfold strip, strip_with.
  rewrite <-(app_nil_r line), lstrip_with_all by done. done.
Qed.

Lemma split1_at sep (k v : pystr) :
  sep ∉ k → split1 sep (k ++ sep :: v) = [k; v].
Proof.
  induction k as [|c k IH]; simpl.
  - by rewrite N.eqb_refl.
  - intros [Hne Hk]%not_elem_of_cons.
    destruct (N.eqb_spec c sep) as [->|_]; [done|]. by rewrite IH.
Qed.

(** A name followed by [=] does not start with a text that has a space
    before any [=]. *)
Lemma startswith_name_eq (p1 p2 key rest : pystr) :
  61%N ∉ p1 → Forall (λ c, name_char c = true) key →
  startswith (p1 ++ 32%N :: p2) (key ++ 61%N :: rest) = false.
Proof.
  intros Hp1 Hkey. revert p1 Hp1.
  induction Hkey as [|c key Hc _ IH]; intros p1 Hp1.
  - destruct p1 as [|x p1]; cbn [startswith app]; [done|].
    apply not_elem_of_cons in Hp1 as [Hx _].
    destruct (N.eqb_spec x 61) as [->|_]; [by destruct Hx | done].
  - destruct p1 as [|x p1]; cbn [startswith app].
    + destruct (N.eqb_spec 32 c) as [<-|_]; [by vm_compute in Hc | done].
    + apply not_elem_of_cons in Hp1 as [_ Hp1].
      rewrite (IH p1 Hp1). apply andb_false_r.
Qed.

Lemma name_char_facts c :
  name_char c = true →
  isspace c = false ∧ c ≠ 61%N ∧ c ≠ NUL ∧ c ≠ 35%N.
Proof.
  unfold name_char, isspace, NUL. intros Hc.
  repeat split; [|intros ->; done..].
  repeat first
    [ rewrite orb_true_iff in Hc | rewrite andb_true_iff in Hc
    | rewrite N.leb_le in Hc | rewrite N.eqb_eq in Hc ].
  repeat first
    [ rewrite orb_false_iff | rewrite andb_false_iff
    | rewrite N.leb_gt | rewrite N.eqb_neq ].
  lia.
Qed.

Lemma startswith_app (p s : pystr) : startswith p (p ++ s) = true.
Proof. induction p as [|c p IH]; simpl; [done|]. by rewrite N.eqb_refl. Qed.

(** Closed facts about literals are settled by evaluation. *)
Ltac by_evaluation :=
  match goal with
  | |- ?P => apply (@bool_decide_unpack P _); vm_compute; exact I
  end.

(** The last character of [...=VALUE] is not white space. *)
Lemma last_key_value (pre value : pystr) x :
  is_value value → last (pre ++ [61%N] ++ value) = Some x → isspace x = false.
Proof.
  intros [_ Hlast]. rewrite app_assoc, last_app.
  destruct (last value) as [y|] eqn:Hy.
  - intros [= <-]. by apply Hlast.
  - rewrite last_snoc. by intros [= <-].
Qed.

(** The text of an assignment after [strip]: the ending is gone. *)
Lemma strip_key_value c (pre value ending : pystr) :
  isspace c = false → is_value value → blank ending →
  strip (c :: pre ++ [61%N] ++ value ++ ending) = c :: pre ++ [61%N] ++ value.
Proof.
  intros Hc Hvalue Hend. unfold strip.
  assert (c :: pre ++ [61%N] ++ value ++ ending
          = c :: (pre ++ [61%N] ++ value) ++ ending) as ->.
  { f_equal. by rewrite <-!app_assoc. }
  apply strip_with_core; [done| |done].
  intros x. rewrite app_comm_cons. by apply last_key_value.
Qed.

(** What the loop body does on one line [KEY=VALUE]. *)
Lemma load_env_line_assignment exported key value ending env :
  is_name key → is_value value → blank ending →
  load_env_line (assignment exported key value ending) env
  = (<[key := unquoted value]> env, Ok ()).
Proof.
  intros [Hne Hkey] Hvalue Hend.
  destruct key as [|k key]; [done|]. clear Hne.
  destruct (name_char_facts k (Forall_inv Hkey)) as (Hk_space & _ & _ & Hk_hash).
  assert (61%N ∉ k :: key) as Hno_eq.
  { intros Hin. eapply Forall_forall in Hkey; [|exact Hin].
    by apply name_char_facts in Hkey as (_ & ? & _). }
  assert (NUL ∉ k :: key) as Hno_nul.
  { intros Hin. eapply Forall_forall in Hkey; [|exact Hin].
    by apply name_char_facts in Hkey as (_ & _ & ? & _). }
  set (rest := (k :: key) ++ [61%N] ++ value ++ ending).
  assert (strip rest = (k :: key) ++ 61%N :: value) as Hstrip.
  { apply (strip_key_value k key); done. }
  (* the line, the export prefix taken away *)
  assert ((if startswith (py "export ") (assignment exported (k :: key) value ending)
           then drop (length (py "export ")) (assignment exported (k :: key) value ending)
           else assignment exported (k :: key) value ending) = rest) as Hrest.
  { unfold assignment. destruct exported.
    - by rewrite startswith_app, drop_app_length.
    - change ((if startswith (py "export ") rest
               then drop (length (py "export ")) rest else rest) = rest).
      assert (startswith (py "export ") rest = false) as ->; [|done].
      apply (startswith_name_eq (py "export") []); [by_evaluation|done]. }
  assert (truthy (strip (assignment exported (k :: key) value ending)) = true) as Htext.
  { unfold assignment. destruct exported.
    - assert (py "export " ++ (k :: key) ++ [61%N] ++ value ++ ending
              = 101%N :: (py "xport " ++ k :: key) ++ [61%N] ++ value ++ ending) as ->.
      { by rewrite <-app_assoc. }
      by rewrite strip_key_value.
    - change ([] ++ ?l) with l. rewrite <-app_comm_cons. by rewrite strip_key_value. }
  assert (startswith (py "#") (assignment exported (k :: key) value ending) = false)
    as Hcomment.
  { unfold assignment. destruct exported.
    - done.
    - change (py "#") with [35%N]. cbn [startswith app].
      destruct (N.eqb_spec 35 k) as [<-|_]; done. }
  unfold load_env_line. rewrite Htext, Hcomment, Hrest, Hstrip.
  cbn [negb andb]. rewrite split1_at by done.
  unfold os_environ_set, unquoted.
  rewrite bool_decide_eq_false_2 by done.
  rewrite bool_decide_eq_false_2.
  2:{ intros Hin%elem_of_strip_with. by destruct Hvalue. }
  by rewrite bool_decide_eq_false_2.
Qed.

(** What the loop body does on a blank line or a comment: nothing. *)
Lemma load_env_line_skipped line env :
  blank line ∨ comment line → load_env_line line env = (env, Ok ()).
Proof.
  unfold load_env_line, comment.
  intros [Hb%strip_blank | ->]; [by rewrite Hb | by rewrite andb_false_r].
Qed.

(** Double quotes around a value are taken away; a value that neither
    starts nor ends with one is left as it is. *)
Lemma unquoted_quoted (v : pystr) :
  head v ≠ Some dquote → last v ≠ Some dquote →
  unquoted ([dquote] ++ v ++ [dquote]) = v ∧ unquoted v = v.
Proof.
  intros Hhead Hlast. unfold unquoted, strip_chars.
  set (p := λ c : N, bool_decide (c ∈ [dquote])).
  assert (Forall (λ c, p c = true) [dquote]) as Hq.
  { repeat constructor. }
  assert (lstrip_with p v = v) as Hl.
  { destruct v as [|c v]; [done|]. apply lstrip_with_keeps.
    apply bool_decide_eq_false_2. intros ->%list_elem_of_singleton. by destruct Hhead. }
  assert (rstrip_with p v = v) as Hr.
  { apply rstrip_with_keeps. intros c Hc.
    apply bool_decide_eq_false_2. intros ->%list_elem_of_singleton. by destruct Hlast. }
  split; unfold strip_with.
  - rewrite lstrip_with_all by done.
    destruct v as [|c v]; [done|].
    rewrite <-app_comm_cons, lstrip_with_keeps.
    + rewrite app_comm_cons, rstrip_with_all by done. exact Hr.
    + apply bool_decide_eq_false_2. intros ->%list_elem_of_singleton. by destruct Hhead.
  - change (rstrip_with p (lstrip_with p v) = v). by rewrite Hl.
Qed.

(** C9, as amended: while no earlier line of the file has failed to parse,
    a blank line and a comment line leave the environment as the lines
    before them left it, and a line [KEY=VALUE] or [export KEY=VALUE] (KEY a
    name, VALUE up to the white space that ends the line) sets KEY to VALUE
    without the double quotes at its ends: to V for the value ["V"], and to
    VALUE itself when it neither starts nor ends with a double quote. *)
Theorem env_file_lines_applied_in_order :
  (∀ fs fs' path env before line,
     fs' path = Ok (File before None) →
     fs path = Ok (File (before ++ [line]) None) →
     Forall parses before →
     (blank line ∨ comment line →
      load_env_file fs path env = load_env_file fs' path env)
     ∧ (∀ exported key value ending,
          line = assignment exported key value ending →
          is_name key → is_value value → blank ending →
          load_env_file fs path env
          = (<[key := unquoted value]> (load_env_file fs' path env).1, Ok ())))
  ∧ (∀ v, head v ≠ Some dquote → last v ≠ Some dquote →
          unquoted ([dquote] ++ v ++ [dquote]) = v ∧ unquoted v = v).
Proof.
  split; [|exact unquoted_quoted].
  intros fs fs' path env before line Hfs' Hfs Hbefore.
  rewrite (load_env_file_parsed fs' path env before Hfs' Hbefore).
  split.
  - intros Hskip.
    rewrite (load_env_file_parsed fs path env (before ++ [line]) Hfs).
    + by rewrite foldl_snoc, load_env_line_skipped.
    + apply Forall_app. split; [done|]. repeat constructor.
      intros env'. by rewrite load_env_line_skipped.
  - intros exported key value ending -> Hkey Hvalue Hend.
    rewrite (load_env_file_parsed fs path env _ Hfs).
    + by rewrite foldl_snoc, load_env_line_assignment.
    + apply Forall_app. split; [done|]. repeat constructor.
      intros env'. by rewrite load_env_line_assignment.
Qed.

(** C9, as the specification words it, does not hold: a line [A=1] that
    comes after a line without [=] is never reached, and [A] is not set. *)
Lemma assignment_after_bad_line_not_applied :
  ¬ (∀ fs path env before exported key value ending,
       fs path = Ok (File (before ++ [assignment exported key value ending]) None) →
       is_name key → is_value value → blank ending →
       (load_env_file fs path env).1 !! key = Some (unquoted value)).
Proof.
  intros Hclaim.
  specialize (Hclaim
    (λ _, Ok (File ([py "oops" ++ [newline]]
                    ++ [assignment false (py "A") (py "1") [newline]]) None))
    (py "/home/u/.local/state/hyde/config") ∅
    [py "oops" ++ [newline]] false (py "A") (py "1") [newline] eq_refl).
  assert (is_name (py "A")) as Hname by (unfold is_name; by_evaluation).
  assert (is_value (py "1")) as Hvalue.
  { split; [by_evaluation|]. by intros c [= <-]. }
  assert (blank [newline]) as Hend by (unfold blank; by_evaluation).
  specialize (Hclaim Hname Hvalue Hend).
  vm_compute in Hclaim. discriminate Hclaim.
Qed.

(** A file with a comment, then an exported and quoted assignment. *)
Lemma env_file_lines_applied_in_order_witness :
  load_env_file
    (λ _, Ok (File ([py "# HyDE state" ++ [newline]]
                    ++ [assignment true (py "WEATHER_LOCATION")
                          ([dquote] ++ py "40.71,-74.0" ++ [dquote]) [newline]]) None))
    (py "/home/u/.local/state/hyde/config") ∅
  = ({[ py "WEATHER_LOCATION" := py "40.71,-74.0" ]}, Ok ()).
Proof.
  pose proof (proj1 env_file_lines_applied_in_order
    (λ _, Ok (File ([py "# HyDE state" ++ [newline]]
                    ++ [assignment true (py "WEATHER_LOCATION")
                          ([dquote] ++ py "40.71,-74.0" ++ [dquote]) [newline]]) None))
    (λ _, Ok (File [py "# HyDE state" ++ [newline]] None))
    (py "/home/u/.local/state/hyde/config") ∅
    [py "# HyDE state" ++ [newline]]
    (assignment true (py "WEATHER_LOCATION")
       ([dquote] ++ py "40.71,-74.0" ++ [dquote]) [newline])
    eq_refl eq_refl) as Hthm.
  assert (Forall parses [py "# HyDE state" ++ [newline]]) as Hbefore.
  { apply Forall_singleton. intros env. reflexivity. }
  destruct (Hthm Hbefore) as [_ Hset].
  rewrite (Hset true (py "WEATHER_LOCATION")
             ([dquote] ++ py "40.71,-74.0" ++ [dquote]) [newline] eq_refl).
  - vm_compute. reflexivity.
  - unfold is_name. by_evaluation.
  - split; [by_evaluation|]. by intros c [= <-].
  - unfold blank. by_evaluation.
Defined.

(** A file whose second line has no [=]: the first line is applied, the
    third is not, and nothing is raised. *)
Lemma load_env_file_never_raises_not_atomic_witness :
  load_env_file
    (λ _, Ok (File ([py "A=1" ++ [newline]]
                    ++ (py "oops" ++ [newline]) :: [py "B=2" ++ [newline]]) None))
    (py "/home/u/.local/state/hyde/config") ∅
  = ({[ py "A" := py "1" ]}, Ok ()).
Proof.
  destruct load_env_file_never_raises_not_atomic as (_ & Hstop & Hno_eq).
  rewrite (Hstop _ (λ _, Ok (File [py "A=1" ++ [newline]] None)) _ _
             [py "A=1" ++ [newline]] (py "oops" ++ [newline]) [py "B=2" ++ [newline]] None
             eq_refl eq_refl).
  - vm_compute. reflexivity.
  - apply Forall_singleton. intros env. reflexivity.
  - apply Hno_eq; [reflexivity | reflexivity | by_evaluation].
Defined.

(** ** Weather codes *)

Lemma table_get_int table code fallback :
  table_get table (VInt code) fallback = Ok (default fallback (table !! code)).
Proof. reflexivity. Qed.

(** C2: each of the eighteen codes of the table is shown with its icon and
    its description, and every other integer with the question mark and
    "Unknown". *)
Theorem weather_code_lookup :
  presentation.*1 = weather_codes
  ∧ (∀ code icon text,
       (code, (icon, text)) ∈ presentation →
       get_weather_icon (VInt code) = Ok icon ∧ get_description (VInt code) = Ok text)
  ∧ (∀ code,
       code ∉ weather_codes →
       get_weather_icon (VInt code) = Ok (py "❓")
       ∧ get_description (VInt code) = Ok (py "Unknown")).
Proof.
  split; [reflexivity|]. split.
  - intros code icon text Hrow.
    assert (Forall (λ row : Z * (pystr * pystr),
                      get_weather_icon (VInt row.1) = Ok row.2.1
                      ∧ get_description (VInt row.1) = Ok row.2.2) presentation) as Hall.
    { unfold presentation.
      repeat (apply List.Forall_cons; [split; vm_compute; reflexivity|]).
      apply List.Forall_nil. }
    eapply Forall_forall in Hall; [|exact Hrow]. exact Hall.
  - intros code Hcode. unfold get_weather_icon, get_description.
    rewrite !table_get_int. unfold WMO_WEATHER_CODES, descriptions.
    rewrite !not_elem_of_list_to_map_1; [done|exact Hcode..].
Qed.

(** Code 3 is in the table, code 4 is not. *)
Lemma weather_code_lookup_witness :
  (get_weather_icon (VInt 3) = Ok (py "☁️") ∧ get_description (VInt 3) = Ok (py "Overcast"))
  ∧ (get_weather_icon (VInt 4) = Ok (py "❓") ∧ get_description (VInt 4) = Ok (py "Unknown")).
Proof.
  destruct weather_code_lookup as (_ & Hin & Hout). split.
  - apply Hin. unfold presentation. by_evaluation.
  - apply Hout. unfold weather_codes. by_evaluation.
Defined.

(** ** Settings *)

Section settings.
Context `{PyBuiltins}.

Lemma getenv_set env name fallback s :
  env !! name = Some s → getenv env name fallback = s.
Proof. unfold getenv. by intros ->. Qed.

(** C7: a value of [WEATHER_FORECAST_DAYS] that [int] does not read, or
    reads as a number outside 1..3, gives three forecast days; a value read
    as 1, 2 or 3 gives that many. *)
Theorem forecast_days_resolved env s :
  env !! py "WEATHER_FORECAST_DAYS" = Some s →
  (int_of_str s = None → FORECAST_DAYS (configure env) = 3)
  ∧ (∀ n, int_of_str s = Some n → ¬ (1 ≤ n ≤ 3) → FORECAST_DAYS (configure env) = 3)
  ∧ (∀ n, int_of_str s = Some n → 1 ≤ n ≤ 3 → FORECAST_DAYS (configure env) = n).
Proof.
  intros Hs. unfold configure. cbv zeta. cbn [FORECAST_DAYS].
  rewrite (getenv_set _ _ _ _ Hs).
  split; [|split].
  - intros ->. by rewrite bool_decide_eq_false_2 by lia.
  - intros n -> Hn. by rewrite bool_decide_eq_true_2 by lia.
  - intros n -> Hn. by rewrite bool_decide_eq_false_2 by lia.
Qed.

(** C8: a value of [WEATHER_LOCATION] that splits at commas into exactly
    two texts that [float] reads gives those two numbers; any other value
    gives the coordinates 48.8566, 2.3522. *)
Theorem location_resolved env s :
  env !! py "WEATHER_LOCATION" = Some s →
  (∀ a b x y,
     split 44 s = [a; b] → float_of_str a = Some x → float_of_str b = Some y →
     lat (configure env) = x ∧ lon (configure env) = y)
  ∧ ((¬ ∃ a b x y,
          split 44 s = [a; b] ∧ float_of_str a = Some x ∧ float_of_str b = Some y) →
     lat (configure env) = decimal_to_float 488566 (-4)
     ∧ lon (configure env) = decimal_to_float 23522 (-4)).
Proof.
  intros Hs. unfold configure. cbv zeta. cbn [lat lon].
  rewrite (getenv_set _ _ _ _ Hs). unfold unpack_location.
  split.
  - intros a b x y -> -> ->. done.
  - intros Hnot.
    destruct (split 44 s) as [|a [|b [|c r]]]; [done| | |].
    + by destruct (float_of_str a).
    + destruct (float_of_str a) as [x|] eqn:Ha; [|done].
      destruct (float_of_str b) as [y|] eqn:Hb; [|done].
      destruct Hnot. by exists a, b, x, y.
    + destruct (float_of_str a) as [x|]; [|done].
      destruct (float_of_str b) as [y|]; [|done].
      by destruct (float_of_str c).
Qed.

End settings.

(** [WEATHER_FORECAST_DAYS=5] gives three days. *)
Lemma forecast_days_resolved_witness :
  FORECAST_DAYS (configure {[ py "WEATHER_FORECAST_DAYS" := py "5" ]}) = 3.
Proof.
  refine (proj1 (proj2 (forecast_days_resolved
    {[ py "WEATHER_FORECAST_DAYS" := py "5" ]} (py "5") _)) 5 _ _).
  - reflexivity.
  - reflexivity.
  - lia.
Defined.

(** [WEATHER_LOCATION=not,valid] gives the coordinates of the default. *)
Lemma location_resolved_witness :
  lat (configure {[ py "WEATHER_LOCATION" := py "not,valid" ]}) = decimal_to_float 488566 (-4)
  ∧ lon (configure {[ py "WEATHER_LOCATION" := py "not,valid" ]}) = decimal_to_float 23522 (-4).
Proof.
  refine (proj2 (location_resolved
    {[ py "WEATHER_LOCATION" := py "not,valid" ]} (py "not,valid") _) _).
  - reflexivity.
  - intros (a & b & x & y & Hsplit & Ha & _).
    vm_compute in Hsplit. injection Hsplit as <- <-.
    vm_compute in Ha. discriminate Ha.
Defined.

(** ** Temperatures *)

Lemma fahrenheit_text_unfold c :
  fahrenheit_text c
  = (c9 ← py_mul_int c 9;
     c95 ← py_truediv_int c9 5;
     f ← py_add_int c95 32;
     s ← py_format_1f f;
     Ok (s ++ py "°F")).
Proof.
  unfold fahrenheit_text, celsius_to_fahrenheit, one_decimal.
  destruct (py_mul_int c 9) as [c9|]; [|done]. cbn [mbind outcome_bind].
  destruct (py_truediv_int c9 5) as [c95|]; [|done]. done.
Qed.

Lemma Ok_inj {A} (a b : A) : Ok a = Ok b → a = b.
Proof. by intros [= ->]. Qed.

Lemma bind_ok {A B} (m : outcome A) (f : A → outcome B) b :
  m ≫= f = Ok b → ∃ a, m = Ok a ∧ f a = Ok b.
Proof. destruct m as [a|e]; [|done]. intros Hf. by exists a. Qed.

Section presentation.
Context `{PyBuiltins}.

Lemma feels_like_unfold cfg current temp humidity humid :
  getitem current (py "temperature_2m") = Ok temp →
  getitem current (py "relative_humidity_2m") = Ok humidity →
  py_gt_int humidity 70 = Ok humid →
  get_feels_like cfg current
  = ((if humid then py_add_int temp 2 else Ok temp) ≫= feels_like_text cfg).
Proof.
  intros Ht Hh Hgt. unfold get_feels_like, feels_like_text.
  rewrite Ht, Hh. cbn [mbind outcome_bind]. rewrite Hgt. cbn [mbind outcome_bind].
  destruct (if humid then py_add_int temp 2 else Ok temp) as [feels_like|]; [|done].
  cbn [mbind outcome_bind].
  case_bool_decide; [done|]. by rewrite fahrenheit_text_unfold.
Qed.

(** C4: the feels-like temperature is the temperature plus 2 when the
    relative humidity is greater than 70, and the temperature itself when
    it is not; the 2 degrees are added before the value is formatted, so
    before any conversion to Fahrenheit.  For an integer humidity,
    "greater" is [70 < h]. *)
Theorem feels_like_adjustment cfg current temp humidity :
  getitem current (py "temperature_2m") = Ok temp →
  getitem current (py "relative_humidity_2m") = Ok humidity →
  (py_gt_int humidity 70 = Ok true →
   get_feels_like cfg current = (py_add_int temp 2 ≫= feels_like_text cfg))
  ∧ (py_gt_int humidity 70 = Ok false →
     get_feels_like cfg current = feels_like_text cfg temp)
  ∧ (∀ h : Z, humidity = VInt h → py_gt_int humidity 70 = Ok (bool_decide (70 < h))).
Proof.
  intros Ht Hh. split; [|split].
  - intros Hgt. by rewrite (feels_like_unfold _ _ _ _ _ Ht Hh Hgt).
  - intros Hgt. by rewrite (feels_like_unfold _ _ _ _ _ Ht Hh Hgt).
  - intros h ->. cbn [py_gt_int]. f_equal.
    destruct (Z.ltb_spec 70 h);
      [by rewrite bool_decide_eq_true_2 | by rewrite bool_decide_eq_false_2 by lia].
Qed.

End presentation.

(** The sample, its humidity raised to 71: two degrees more are felt. *)
Lemma feels_like_adjustment_witness :
  get_feels_like default_settings
    (VDict [(py "temperature_2m", VInt 20); (py "relative_humidity_2m", VInt 71)])
  = Ok (py "22.0°C").
Proof.
  rewrite (proj1 (feels_like_adjustment default_settings
                    (VDict [(py "temperature_2m", VInt 20);
                            (py "relative_humidity_2m", VInt 71)])
                    (VInt 20) (VInt 71) eq_refl eq_refl) eq_refl).
  vm_compute. reflexivity.
Defined.

(** ** The dictionary [data] *)

Lemma assoc_dict_set_eq key v (d : dict) : assoc key (dict_set key v d) = Some v.
Proof.
  induction d as [|[k x] d IH]; cbn [dict_set assoc].
  - by rewrite bool_decide_eq_true_2.
  - case_bool_decide as Hk; cbn [assoc].
    + by rewrite bool_decide_eq_true_2.
    + by rewrite bool_decide_eq_false_2.
Qed.

Lemma dict_set_dict_set key v1 v2 (d : dict) :
  dict_set key v2 (dict_set key v1 d) = dict_set key v2 d.
Proof.
  induction d as [|[k x] d IH]; cbn [dict_set].
  - by rewrite bool_decide_eq_true_2.
  - case_bool_decide as Hk; cbn [dict_set].
    + by rewrite bool_decide_eq_true_2.
    + rewrite bool_decide_eq_false_2 by done. by rewrite IH.
Qed.

Lemma assoc_here {V} key (v : V) d : assoc key ((key, v) :: d) = Some v.
Proof. cbn [assoc]. by rewrite bool_decide_eq_true_2. Qed.

Lemma assoc_next {V} k key (v : V) d : k ≠ key → assoc key ((k, v) :: d) = assoc key d.
Proof. intros. cbn [assoc]. by rewrite bool_decide_eq_false_2. Qed.

Lemma dict_set_here key v v0 (d : dict) : dict_set key v ((key, v0) :: d) = (key, v) :: d.
Proof. cbn [dict_set]. by rewrite bool_decide_eq_true_2. Qed.

Lemma dict_set_next k key v v0 (d : dict) :
  k ≠ key → dict_set key v ((k, v0) :: d) = (k, v0) :: dict_set key v d.
Proof. intros. cbn [dict_set]. by rewrite bool_decide_eq_false_2. Qed.

Lemma text_ne_tooltip : py "text" ≠ py "tooltip".
Proof. by_evaluation. Qed.

Lemma f_ne_c : py "f" ≠ py "c".
Proof. by_evaluation. Qed.

Section forecast.
Context `{PyBuiltins}.

(** Four additions to one key are one addition of the four texts. *)
Lemma data_append_four key a b c e (data : dict) :
  py_bind (data_append key a) (λ _,
    py_bind (data_append key b) (λ _,
      py_bind (data_append key c) (λ _, data_append key e))) data
  = data_append key (a ++ b ++ c ++ e) data.
Proof.
  unfold data_append, py_bind, data_get, data_set.
  destruct (assoc key data) as [v|]; [|done].
  rewrite !assoc_dict_set_eq, !dict_set_dict_set.
  by rewrite <-!app_assoc.
Qed.

Lemma data_append_ok key more (data data' : dict) u :
  data_append key more data = (data', Ok u) →
  ∃ old, assoc key data = Some old ∧ data' = dict_set key (old ++ more) data.
Proof.
  unfold data_append, py_bind, data_get, data_set.
  destruct (assoc key data) as [v|]; [|done]. intros [= <-]. by exists v.
Qed.

(** The loop body adds the block of its day to the tooltip, when the block
    can be made; the exception that prevents it leaves [data] as it was. *)
Lemma forecast_day_text cfg daily i (data : dict) :
  forecast_day cfg daily i data
  = match forecast_text cfg daily i with
    | Ok block => data_append (py "tooltip") block data
    | Raised e => (data, Raised e)
    end.
Proof.
  unfold forecast_day, forecast_text, day_item, temperature_text.
  unfold py_bind at 1 2 3 4 5 6. unfold py_eval.
  destruct (getitem daily (py "time")) as [c_time|]; cbn [mbind outcome_bind]; [|done].
  destruct (getindex c_time i) as [date|]; cbn [mbind outcome_bind]; [|done].
  destruct (getitem daily (py "weathercode")) as [c_code|]; cbn [mbind outcome_bind]; [|done].
  destruct (getindex c_code i) as [code|]; cbn [mbind outcome_bind]; [|done].
  destruct (get_description code) as [desc|]; cbn [mbind outcome_bind]; [|done].
  destruct (get_weather_icon code) as [icon|]; cbn [mbind outcome_bind]; [|done].
  case_bool_decide as Hunit.
  - destruct (getitem daily (py "temperature_2m_max")) as [c_max|];
      cbn [mbind outcome_bind]; [|done].
    destruct (getindex c_max i) as [tmax|]; cbn [mbind outcome_bind]; [|done].
    destruct (getitem daily (py "temperature_2m_min")) as [c_min|];
      cbn [mbind outcome_bind]; [|done].
    destruct (getindex c_min i) as [tmin|]; cbn [mbind outcome_bind]; [|done].
    destruct (time_of_day daily (py "sunrise") i) as [sunrise|];
      cbn [mbind outcome_bind]; [|done].
    destruct (time_of_day daily (py "sunset") i) as [sunset|];
      cbn [mbind outcome_bind]; [|done].
    cbn [fst snd]. rewrite data_append_four.
    destruct i; [done|]. by rewrite bool_decide_eq_false_2.
  - destruct (getitem daily (py "temperature_2m_max")) as [c_max|];
      cbn [mbind outcome_bind]; [|done].
    destruct (getindex c_max i) as [tmax|]; cbn [mbind outcome_bind]; [|done].
    rewrite (fahrenheit_text_unfold tmax).
    destruct (py_mul_int tmax 9) as [x9|]; cbn [mbind outcome_bind]; [|done].
    destruct (py_truediv_int x9 5) as [x95|]; cbn [mbind outcome_bind]; [|done].
    destruct (py_add_int x95 32) as [xf|]; cbn [mbind outcome_bind]; [|done].
    destruct (py_format_1f xf) as [max_temp|]; cbn [mbind outcome_bind]; [|done].
    destruct (getitem daily (py "temperature_2m_min")) as [c_min|];
      cbn [mbind outcome_bind]; [|done].
    destruct (getindex c_min i) as [tmin|]; cbn [mbind outcome_bind]; [|done].
    rewrite (fahrenheit_text_unfold tmin).
    destruct (py_mul_int tmin 9) as [n9|]; cbn [mbind outcome_bind]; [|done].
    destruct (py_truediv_int n9 5) as [n95|]; cbn [mbind outcome_bind]; [|done].
    destruct (py_add_int n95 32) as [nf|]; cbn [mbind outcome_bind]; [|done].
    destruct (py_format_1f nf) as [min_temp|]; cbn [mbind outcome_bind]; [|done].
    destruct (time_of_day daily (py "sunrise") i) as [sunrise|];
      cbn [mbind outcome_bind]; [|done].
    destruct (time_of_day daily (py "sunset") i) as [sunset|];
      cbn [mbind outcome_bind]; [|done].
    cbn [fst snd]. rewrite data_append_four.
    destruct i; [done|]. by rewrite bool_decide_eq_false_2.
Qed.

End forecast.

(** ** Running a block *)

Lemma py_bind_eval {S A B} (o : outcome A) (f : A → Py S B) (s : S) :
  py_bind (py_eval o) f s
  = match o with
    | Ok a => f a s
    | Raised e => (s, Raised e)
    end.
Proof. by destruct o. Qed.

Lemma py_bind_assoc {S A B C} (m : Py S A) (f : A → Py S B) (g : B → Py S C) (s : S) :
  py_bind (py_bind m f) g s = py_bind m (λ a, py_bind (f a) g) s.
Proof. unfold py_bind. by destruct (m s) as [s' [a|e]]. Qed.

Lemma py_bind_ret {S A B} (a : A) (f : A → Py S B) (s : S) :
  py_bind (py_ret a) f s = f a s.
Proof. done. Qed.

Section running.
Context `{PyBuiltins}.

Lemma py_bind_data_set {B} key v (f : unit → Py dict B) (data : dict) :
  py_bind (data_set key v) f data = f () (dict_set key v data).
Proof. done. Qed.

Lemma py_bind_data_get {B} key (f : pystr → Py dict B) (data : dict) :
  py_bind (data_get key) f data
  = match assoc key data with
    | Some v => f v data
    | None => (data, Raised (Exn KeyError (str_repr key)))
    end.
Proof. unfold py_bind, data_get. by destruct (assoc key data). Qed.

Lemma py_bind_data_append {B} key more (f : unit → Py dict B) (data : dict) :
  py_bind (data_append key more) f data
  = match assoc key data with
    | Some old => f () (dict_set key (old ++ more) data)
    | None => (data, Raised (Exn KeyError (str_repr key)))
    end.
Proof.
  unfold data_append. rewrite py_bind_assoc, py_bind_data_get.
  by destruct (assoc key data).
Qed.

(** The forecast loop, from a tooltip that has its first lines: each day
    adds its block, in order. *)
Lemma forecast_loop cfg daily n : ∀ a text tip (data : dict),
  py_for (seq a n) (forecast_day cfg daily) [(py "text", text); (py "tooltip", tip)]
  = (data, Ok ()) →
  ∃ blocks,
    length blocks = n
    ∧ (∀ j block, blocks !! j = Some block → forecast_text cfg daily (a + j) = Ok block)
    ∧ data = [(py "text", text); (py "tooltip", tip ++ mjoin blocks)].
Proof.
  induction n as [|n IH]; intros a text tip data; cbn [seq py_for].
  - intros [= <-]. exists []. split; [done|]. split; [done|].
    cbn [mjoin list_join]. by rewrite app_nil_r.
  - unfold py_bind at 1. rewrite forecast_day_text.
    destruct (forecast_text cfg daily a) as [block|] eqn:Hblock; [|done].
    unfold data_append. rewrite py_bind_data_get.
    rewrite (assoc_next _ _ _ _ text_ne_tooltip), assoc_here.
    unfold data_set.
    rewrite (dict_set_next _ _ _ _ _ text_ne_tooltip), dict_set_here.
    intros (blocks & Hlen & Hblocks & ->)%IH.
    exists (block :: blocks). split; [by rewrite <-Hlen|]. split.
    + intros [|j] b; cbn [lookup list_lookup].
      * intros [= <-]. by rewrite Nat.add_0_r.
      * intros Hb. rewrite <-Nat.add_succ_comm. by apply Hblocks.
    + cbn [mjoin list_join]. by rewrite <-app_assoc.
Qed.

End running.

(** ** The record of a run that succeeds *)

Section success.
Context `{PyBuiltins}.

(** The run of the second [try] block, from the tooltip on. *)
Ltac run_tooltip Hrun Htemp :=
  unfold current_text; rewrite Htemp;
  unfold pystr in *;
  rewrite py_bind_eval in Hrun;
  lazymatch type of Hrun with
  | match ?o ≫= _ with Ok _ => _ | Raised _ => _ end = _ =>
    destruct o as [desc|]; [|done]
  end;
  cbn [mbind outcome_bind] in Hrun;
  rewrite py_bind_data_set, (dict_set_next _ _ _ _ _ text_ne_tooltip) in Hrun;
  cbn [dict_set] in Hrun;
  rewrite py_bind_eval in Hrun;
  lazymatch type of Hrun with
  | match ?o with Ok _ => _ | Raised _ => _ end = _ =>
    destruct o as [feels|]; [|done]
  end;
  cbv beta in Hrun;
  rewrite py_bind_data_append, (assoc_next _ _ _ _ text_ne_tooltip), assoc_here,
    (dict_set_next _ _ _ _ _ text_ne_tooltip), dict_set_here in Hrun;
  rewrite py_bind_eval in Hrun;
  lazymatch type of Hrun with
  | match ?o with Ok _ => _ | Raised _ => _ end = _ =>
    destruct o as [wind|]; [|done]
  end;
  cbv beta in Hrun;
  rewrite py_bind_data_append, (assoc_next _ _ _ _ text_ne_tooltip), assoc_here,
    (dict_set_next _ _ _ _ _ text_ne_tooltip), dict_set_here in Hrun;
  rewrite py_bind_eval in Hrun;
  lazymatch type of Hrun with
  | match ?o with Ok _ => _ | Raised _ => _ end = _ =>
    destruct o as [humidity|]; [|done]
  end;
  cbv beta in Hrun;
  rewrite py_bind_data_append, (assoc_next _ _ _ _ text_ne_tooltip), assoc_here,
    (dict_set_next _ _ _ _ _ text_ne_tooltip), dict_set_here in Hrun;
  rewrite py_bind_eval in Hrun;
  lazymatch type of Hrun with
  | match ?o with Ok _ => _ | Raised _ => _ end = _ =>
    destruct o as [days|] eqn:Hcount; [|done]
  end;
  apply forecast_loop in Hrun as (blocks & Hlen & Hblocks & ->);
  cbn [mbind outcome_bind];
  eexists _, _, _;
  repeat split;
  first [ eassumption | by intros _; eassumption | done
        | by rewrite <-?app_assoc, ?app_nil_r ].

(** What [data] holds when the second [try] block ends without an
    exception. *)
Lemma process_ok cfg weather data :
  process cfg weather [] = (data, Ok ()) →
  ∃ current daily temperature icon head days blocks,
    getitem weather (py "current") = Ok current
    ∧ getitem weather (py "daily") = Ok daily
    ∧ get_temperature cfg current = Ok temperature
    ∧ (show_icon cfg = true →
       getitem current (py "weathercode") ≫= get_weather_icon = Ok icon)
    ∧ current_text cfg current = Ok head
    ∧ getitem daily (py "time") ≫= py_len = Ok days
    ∧ length blocks = Z.to_nat (Z.min (FORECAST_DAYS cfg) days)
    ∧ (∀ i block, blocks !! i = Some block → forecast_text cfg daily i = Ok block)
    ∧ data = [(py "text", text_line cfg icon temperature);
              (py "tooltip", head ++ mjoin blocks)].
Proof.
  intros Hrun. unfold process in Hrun. unfold pystr in *.
  rewrite py_bind_eval in Hrun.
  destruct (getitem weather (py "current")) as [current|] eqn:Hcurrent; [|done].
  cbv beta in Hrun. rewrite py_bind_eval in Hrun.
  destruct (getitem weather (py "daily")) as [daily|] eqn:Hdaily; [|done].
  cbv beta in Hrun. rewrite py_bind_eval in Hrun.
  destruct (get_temperature cfg current) as [temperature|] eqn:Htemp; [|done].
  cbv beta in Hrun. rewrite py_bind_data_set in Hrun. cbn [dict_set] in Hrun.
  unfold text_line. destruct (show_icon cfg).
  - rewrite py_bind_assoc, py_bind_eval in Hrun.
    match type of Hrun with
    | match ?o with Ok _ => _ | Raised _ => _ end = _ =>
      destruct o as [icon|] eqn:Hicon; [|done]
    end.
    cbv beta in Hrun. rewrite py_bind_assoc, py_bind_data_get, assoc_here in Hrun.
    cbv beta in Hrun. rewrite py_bind_data_set, dict_set_here in Hrun.
    exists current, daily, temperature, icon.
    destruct (show_location cfg);
      [ rewrite py_bind_data_append, assoc_here, dict_set_here in Hrun
      | rewrite py_bind_ret in Hrun ];
      cbv beta in Hrun; run_tooltip Hrun Htemp.
  - rewrite py_bind_ret in Hrun.
    exists current, daily, temperature, [].
    destruct (show_location cfg);
      [ rewrite py_bind_data_append, assoc_here, dict_set_here in Hrun
      | rewrite py_bind_ret in Hrun ];
      cbv beta in Hrun; run_tooltip Hrun Htemp.
Qed.

End success.

(** ** What is shown *)

Section shown.
Context `{PyBuiltins}.

(** C3: in Fahrenheit, the current temperature, the feels-like temperature
    and the maximum and minimum of each forecast day are each the Celsius
    value [c] taken through [c * 9 / 5 + 32] and written with one decimal;
    in Celsius, the current temperature is the value the API gave, written
    as it is.  On a float the conversion is the three binary64 operations,
    each rounded. *)
Theorem temperatures_rendered cfg :
  (temp_unit cfg = py "f" →
   (∀ current,
      get_temperature cfg current
      = getitem current (py "temperature_2m") ≫= fahrenheit_text)
   ∧ (∀ current temp humidity humid,
        getitem current (py "temperature_2m") = Ok temp →
        getitem current (py "relative_humidity_2m") = Ok humidity →
        py_gt_int humidity 70 = Ok humid →
        get_feels_like cfg current
        = (if humid then py_add_int temp 2 else Ok temp) ≫= fahrenheit_text)
   ∧ (∀ daily i data data',
        forecast_day cfg daily i data = (data', Ok ()) →
        ∃ tmax tmin max_temp min_temp before after,
          day_item daily (py "temperature_2m_max") i = Ok tmax
          ∧ fahrenheit_text tmax = Ok max_temp
          ∧ day_item daily (py "temperature_2m_min") i = Ok tmin
          ∧ fahrenheit_text tmin = Ok min_temp
          ∧ assoc (py "tooltip") data'
            = Some (before ++ py "⬆️ " ++ max_temp ++ py " ⬇️ " ++ min_temp
                    ++ [newline] ++ after)))
  ∧ (temp_unit cfg = py "c" →
     ∀ current,
       get_temperature cfg current
       = (t ← getitem current (py "temperature_2m"); Ok (py_str t ++ py "°C")))
  ∧ (∀ c : spec_float,
       celsius_to_fahrenheit (VFloat c)
       = Ok (VFloat (fadd (fdiv (fmul c (binary_normalize 53 1024 9 0 false))
                             (binary_normalize 53 1024 5 0 false))
                       (binary_normalize 53 1024 32 0 false)))).
Proof.
  split; [|split].
  - intros Hunit.
    assert (temp_unit cfg ≠ py "c") as Hne by (rewrite Hunit; exact f_ne_c).
    split; [|split].
    + intros current. unfold get_temperature.
      rewrite bool_decide_eq_false_2 by done.
      destruct (getitem current (py "temperature_2m")) as [t|]; [|done].
      cbn [mbind outcome_bind]. by rewrite fahrenheit_text_unfold.
    + intros current temp humidity humid Ht Hh Hgt.
      rewrite (feels_like_unfold _ _ _ _ _ Ht Hh Hgt). unfold feels_like_text.
      by rewrite bool_decide_eq_false_2.
    + intros daily i data data'. rewrite forecast_day_text.
      destruct (forecast_text cfg daily i) as [block|] eqn:Hblock; [|done].
      intros (tip & Htip & ->)%data_append_ok.
      unfold forecast_text in Hblock.
      apply bind_ok in Hblock as (date & _ & Hblock).
      apply bind_ok in Hblock as (desc & _ & Hblock).
      apply bind_ok in Hblock as (icon & _ & Hblock).
      apply bind_ok in Hblock as (max_temp & Hmax & Hblock).
      apply bind_ok in Hblock as (min_temp & Hmin & Hblock).
      apply bind_ok in Hblock as (sunrise & _ & Hblock).
      apply bind_ok in Hblock as (sunset & _ & Hblock).
      apply bind_ok in Hmax as (tmax & Htmax & Hmax).
      apply bind_ok in Hmin as (tmin & Htmin & Hmin).
      unfold temperature_text in Hmax, Hmin.
      rewrite bool_decide_eq_false_2 in Hmax, Hmin by done.
      apply Ok_inj in Hblock as <-.
      exists tmax, tmin, max_temp, min_temp.
      exists (tip ++ ([newline] ++ py "<b>" ++ day_label i ++ py " (" ++ py_str date
                      ++ py ")</b>" ++ [newline])
                  ++ (icon ++ py " " ++ desc ++ [newline])).
      exists (py "🌅 " ++ sunrise ++ py " 🌇 " ++ sunset ++ [newline]).
      split; [exact Htmax|]. split; [exact Hmax|].
      split; [exact Htmin|]. split; [exact Hmin|].
      rewrite assoc_dict_set_eq. f_equal.
      by rewrite <-!app_assoc.
  - intros Hunit current. unfold get_temperature.
    by rewrite bool_decide_eq_true_2.
  - intros c. reflexivity.
Qed.

End shown.

(** The sample in Fahrenheit: 20 degrees Celsius are 68.0. *)
Lemma temperatures_rendered_witness :
  get_temperature (configure {[ py "WEATHER_TEMPERATURE_UNIT" := py "F" ]}) sample_current
  = Ok (py "68.0°F").
Proof.
  assert (temp_unit (configure {[ py "WEATHER_TEMPERATURE_UNIT" := py "F" ]}) = py "f")
    as Hunit by (vm_compute; reflexivity).
  rewrite (proj1 (proj1 (temperatures_rendered
                           (configure {[ py "WEATHER_TEMPERATURE_UNIT" := py "F" ]}))
                    Hunit)).
  vm_compute. reflexivity.
Defined.

Section record.
Context `{PyBuiltins}.

(** C5: when the payload is processed without an exception and
    [daily["time"]] has [d] entries, the tooltip is the four lines about the
    current weather followed by exactly [min(FORECAST_DAYS, d)] blocks, the
    block at index [i] being the one made from entry [i] of the daily
    arrays; it opens with the label of day [i], "Today" for 0 and "Day i+1"
    after, and the date [daily["time"][i]]. *)
Theorem forecast_blocks cfg weather data :
  process cfg weather [] = (data, Ok ()) →
  ∃ current daily times d head blocks,
    getitem weather (py "current") = Ok current
    ∧ getitem weather (py "daily") = Ok daily
    ∧ getitem daily (py "time") = Ok times
    ∧ py_len times = Ok d
    ∧ current_text cfg current = Ok head
    ∧ assoc (py "tooltip") data = Some (head ++ mjoin blocks)
    ∧ length blocks = Z.to_nat (Z.min (FORECAST_DAYS cfg) d)
    ∧ (∀ i block,
         blocks !! i = Some block →
         forecast_text cfg daily i = Ok block
         ∧ ∃ date rest,
             getindex times i = Ok date
             ∧ block = [newline] ++ py "<b>"
                       ++ match i with
                          | O => py "Today"
                          | S _ => py "Day " ++ int_str (Z.of_nat i + 1)
                          end
                       ++ py " (" ++ py_str date ++ py ")</b>" ++ [newline] ++ rest).
Proof.
  intros (current & daily & temperature & icon & head & d & blocks
          & Hcurrent & Hdaily & _ & _ & Hhead & Hcount & Hlen & Hblocks & ->)%process_ok.
  apply bind_ok in Hcount as (times & Htimes & Hd).
  exists current, daily, times, d, head, blocks.
  do 5 (split; [assumption|]).
  split. { by rewrite (assoc_next _ _ _ _ text_ne_tooltip), assoc_here. }
  split; [assumption|].
  intros i block Hblock%Hblocks. split; [assumption|].
  unfold forecast_text, day_item in Hblock. rewrite Htimes in Hblock.
  cbn [mbind outcome_bind] in Hblock.
  apply bind_ok in Hblock as (date & Hdate & Hblock).
  apply bind_ok in Hblock as (desc & _ & Hblock).
  apply bind_ok in Hblock as (wicon & _ & Hblock).
  apply bind_ok in Hblock as (max_temp & _ & Hblock).
  apply bind_ok in Hblock as (min_temp & _ & Hblock).
  apply bind_ok in Hblock as (sunrise & _ & Hblock).
  apply bind_ok in Hblock as (sunset & _ & Hblock).
  apply Ok_inj in Hblock as <-.
  exists date. eexists. split; [exact Hdate|].
  unfold day_label. rewrite <-!app_assoc. reflexivity.
Qed.

(** C6: when the payload is processed without an exception, the text is
    the icon of the current weather code and a space (if the icon is
    shown), the current temperature, and [" | Paris, FR"] (if the place is
    shown).  The place is that literal: settings that differ only in the
    location and its coordinates are processed alike. *)
Theorem text_line_assembled cfg weather :
  (∀ data,
     process cfg weather [] = (data, Ok ()) →
     ∃ current temperature icon,
       getitem weather (py "current") = Ok current
       ∧ get_temperature cfg current = Ok temperature
       ∧ (show_icon cfg = true →
          getitem current (py "weathercode") ≫= get_weather_icon = Ok icon)
       ∧ assoc (py "text") data
         = Some ((if show_icon cfg then icon ++ py " " else [])
                 ++ temperature
                 ++ (if show_location cfg then py " | Paris, FR" else [])))
  ∧ (∀ place la lo,
       process (relocated cfg place la lo) weather [] = process cfg weather []).
Proof.
  split.
  - intros data
      (current & daily & temperature & icon & head & d & blocks
       & Hcurrent & _ & Htemp & Hicon & _ & _ & _ & _ & ->)%process_ok.
    exists current, temperature, icon.
    do 3 (split; [assumption|]).
    by rewrite assoc_here.
  - intros place la lo. destruct cfg. reflexivity.
Qed.

End record.

(** The sample payload with the default settings: both days of the
    forecast are shown, under "Today" and "Day 2". *)
Lemma forecast_blocks_witness :
  ∃ head first second rest1 rest2,
    assoc (py "tooltip") (process default_settings sample_weather []).1
    = Some (head ++ first ++ second)
    ∧ first = [newline] ++ py "<b>Today (2024-05-01)</b>" ++ [newline] ++ rest1
    ∧ second = [newline] ++ py "<b>Day 2 (2024-05-02)</b>" ++ [newline] ++ rest2.
Proof.
  destruct (forecast_blocks default_settings sample_weather
              (process default_settings sample_weather []).1)
    as (current & daily & times & d & head & blocks
        & _ & Hdaily & Htimes & Hd & _ & Htip & Hlen & Hblocks).
  { vm_compute. reflexivity. }
  apply Ok_inj in Hdaily as <-. apply Ok_inj in Htimes as <-.
  apply Ok_inj in Hd as <-.
  destruct blocks as [|first [|second [|third blocks]]]; try discriminate Hlen.
  destruct (Hblocks 0%nat first eq_refl) as (_ & date1 & rest1 & Hdate1 & Hfirst).
  destruct (Hblocks 1%nat second eq_refl) as (_ & date2 & rest2 & Hdate2 & Hsecond).
  apply Ok_inj in Hdate1 as <-. apply Ok_inj in Hdate2 as <-.
  exists head, first, second, rest1, rest2.
  split; [|split].
  - rewrite Htip. cbn [mjoin list_join]. by rewrite app_nil_r.
  - exact Hfirst.
  - exact Hsecond.
Defined.

(** The example of the specification: code 0 and 20 degrees, in Celsius. *)
Lemma text_line_assembled_witness :
  assoc (py "text") (process default_settings sample_weather []).1
  = Some (py "☀️ 20°C | Paris, FR").
Proof.
  destruct (proj1 (text_line_assembled default_settings sample_weather)
              (process default_settings sample_weather []).1)
    as (current & temperature & icon & Hcurrent & Htemp & Hicon & ->).
  { vm_compute. reflexivity. }
  apply Ok_inj in Hcurrent as <-.
  apply Ok_inj in Htemp as <-.
  specialize (Hicon eq_refl). apply Ok_inj in Hicon as <-.
  vm_compute. reflexivity.
Defined.

(** ** Failures *)

Create HintDb keeps discriminated.

Lemma keeps_ret {A} (a : A) : keeps (py_ret a).
Proof. by intros data data' r Hd [= <- _]. Qed.

Lemma keeps_eval {A} (o : outcome A) : keeps (py_eval o).
Proof. by intros data data' r Hd [= <- _]. Qed.

Lemma keeps_bind {A B} (m : Py dict A) (f : A → Py dict B) :
  keeps m → (∀ a, keeps (f a)) → keeps (py_bind m f).
Proof.
  intros Hm Hf data data' r Hd. unfold py_bind.
  destruct (m data) as [data1 [a|e]] eqn:Hrun.
  - apply (Hf a). by eapply Hm.
  - intros [= <- _]. by eapply Hm.
Qed.

Lemma keeps_if {A} (b : bool) (m1 m2 : Py dict A) :
  keeps m1 → keeps m2 → keeps (if b then m1 else m2).
Proof. by destruct b. Qed.

Lemma keeps_for {A} (l : list A) (body : A → Py dict unit) :
  (∀ x, keeps (body x)) → keeps (py_for l body).
Proof.
  intros Hbody. induction l as [|x l IH]; cbn [py_for].
  - apply keeps_ret.
  - apply keeps_bind; [apply Hbody | by intros _].
Qed.

Lemma text_set_text v data : text_set data → text_set (dict_set (py "text") v data).
Proof.
  intros (text & rest & -> & Hrest). exists v, rest. by rewrite dict_set_here.
Qed.

Lemma text_set_tooltip v data : text_set data → text_set (dict_set (py "tooltip") v data).
Proof.
  intros (text & rest & -> & Hrest).
  rewrite (dict_set_next _ _ _ _ _ text_ne_tooltip).
  exists text. eexists. split; [done|]. right.
  destruct Hrest as [->|[tip ->]].
  - by exists v.
  - exists v. by rewrite dict_set_here.
Qed.

(** The record that the handler of a failed run leaves in [data]. *)
Lemma handler_record err tip data :
  data = [] ∨ text_set data →
  dict_set (py "tooltip") tip (dict_set (py "text") err data)
  = [(py "text", err); (py "tooltip", tip)].
Proof.
  intros [->|(text & rest & -> & Hrest)].
  - change (dict_set (py "text") err []) with [(py "text", err)].
    by rewrite (dict_set_next _ _ _ _ _ text_ne_tooltip).
  - rewrite dict_set_here, (dict_set_next _ _ _ _ _ text_ne_tooltip).
    destruct Hrest as [->|[old ->]]; [done|]. by rewrite dict_set_here.
Qed.

Section failures.
Context `{PyBuiltins}.

Lemma keeps_data_set_text v : keeps (data_set (py "text") v).
Proof. intros data data' r Hd [= <- _]. by apply text_set_text. Qed.

Lemma keeps_data_set_tooltip v : keeps (data_set (py "tooltip") v).
Proof. intros data data' r Hd [= <- _]. by apply text_set_tooltip. Qed.

Lemma keeps_data_get key : keeps (data_get key).
Proof.
  intros data data' r Hd. unfold data_get.
  destruct (assoc key data); by intros [= <- _].
Qed.

Lemma keeps_data_append_text more : keeps (data_append (py "text") more).
Proof.
  apply keeps_bind; [apply keeps_data_get | intros; apply keeps_data_set_text].
Qed.

Lemma keeps_data_append_tooltip more : keeps (data_append (py "tooltip") more).
Proof.
  apply keeps_bind; [apply keeps_data_get | intros; apply keeps_data_set_tooltip].
Qed.

Lemma keeps_forecast_day cfg daily i : keeps (forecast_day cfg daily i).
Proof.
  intros data data' r Hd. rewrite forecast_day_text.
  destruct (forecast_text cfg daily i).
  - by apply keeps_data_append_tooltip.
  - by intros [= <- _].
Qed.

#[local] Hint Resolve keeps_ret keeps_eval keeps_bind keeps_if keeps_for keeps_data_set_text
  keeps_data_set_tooltip keeps_data_get keeps_data_append_text
  keeps_data_append_tooltip keeps_forecast_day : keeps.

(** [data] when the second [try] block raises: still empty, or with the
    text set. *)
Lemma process_raised cfg weather data e :
  process cfg weather [] = (data, Raised e) → data = [] ∨ text_set data.
Proof.
  unfold process.
  rewrite py_bind_eval.
  destruct (getitem weather (py "current")) as [current|]; [|intros [= <- _]; by left].
  cbv beta. rewrite py_bind_eval.
  destruct (getitem weather (py "daily")) as [daily|]; [|intros [= <- _]; by left].
  cbv beta. rewrite py_bind_eval.
  destruct (get_temperature cfg current) as [temperature|]; [|intros [= <- _]; by left].
  cbv beta. rewrite py_bind_data_set. cbn [dict_set].
  intros Hrun. right. revert Hrun.
  match goal with
  | |- ?m ?d = _ → _ => assert (keeps m) as Hkeeps
  end.
  { auto 30 with keeps. }
  apply Hkeeps. exists temperature, []. by split; [|left].
Qed.

(** C1: when fetching fails, that is when [requests.get] raises (no
    network, a timeout), [raise_for_status] raises (an HTTP error status) or
    [response.json()] raises, the script prints the record with the text
    "❓ Weather Error" and the tooltip "Failed to get weather data: " and the
    message, and exits with status 1; when processing the payload raises, it
    prints the record with the text "❓ Processing Error" and the message in
    the tooltip, writes the traceback to standard error, and exits with
    status 0.  Nothing else goes to standard output. *)
Theorem failures_reported w env cfg :
  startup w env = Ok cfg →
  (∀ e,
     fetch w cfg = Raised e →
     main w env
     = Run (json_dumps [(py "text", py "❓ Weather Error");
                        (py "tooltip", py "Failed to get weather data: " ++ exn_str e)]
            ++ [newline])
           (debug_prints cfg) 1)
  ∧ (∀ weather data e,
       fetch w cfg = Ok weather →
       process cfg weather [] = (data, Raised e) →
       main w env
       = Run (json_dumps [(py "text", py "❓ Processing Error");
                          (py "tooltip", py "Failed to process weather data: " ++ exn_str e)]
              ++ [newline])
             (debug_prints cfg ++ py "ERROR: " ++ format_exc e ++ [newline]) 0)
  ∧ (∀ e,
       fetch w cfg = Raised e ↔
       requests_get w (URL cfg) = Raised e
       ∨ ∃ response,
           requests_get w (URL cfg) = Ok response
           ∧ (raise_for_status response = Some e
              ∨ raise_for_status response = None ∧ json response = Raised e)).
Proof.
  intros Hstart. unfold main. rewrite Hstart. unfold report.
  split; [|split].
  - intros e ->. done.
  - intros weather data e -> Hrun. rewrite Hrun.
    by rewrite (handler_record _ _ _ (process_raised _ _ _ _ Hrun)).
  - intros e. unfold fetch.
    destruct (requests_get w (URL cfg)) as [response|e0]; cbn [mbind outcome_bind].
    + destruct (raise_for_status response) as [e1|] eqn:Hstatus;
        cbn [mbind outcome_bind].
      * split.
        -- intros [= ->]. right. exists response. split; [done|]. by left.
        -- intros [Hget|(r & Hget & Hr)]; [done|]. apply Ok_inj in Hget as <-.
           destruct Hr as [Hs|[Hs _]]; rewrite Hstatus in Hs; [|done].
           by apply (inj Some) in Hs as ->.
      * split.
        -- intros Hjson. right. exists response. split; [done|]. by right.
        -- intros [Hget|(r & Hget & Hr)]; [done|]. apply Ok_inj in Hget as <-.
           destruct Hr as [Hs|[_ Hjson]]; [by rewrite Hstatus in Hs | done].
    + split.
      * intros [= ->]. by left.
      * intros [[= ->]|(r & ? & _)]; done.
Qed.

End failures.

(** No file, no network: the request times out. *)
Lemma failures_reported_witness :
  main offline home_only
  = Run (json_dumps [(py "text", py "❓ Weather Error");
                     (py "tooltip", py "Failed to get weather data: timed out")]
         ++ [newline])
        (debug_prints default_settings) 1
  ∧ main empty_answer home_only
    = Run (json_dumps [(py "text", py "❓ Processing Error");
                       (py "tooltip", py "Failed to process weather data: 'current'")]
           ++ [newline])
          (debug_prints default_settings
           ++ py "ERROR: Traceback (most recent call last):" ++ [newline]
           ++ py "KeyError: 'current'" ++ [newline] ++ [newline]) 0.
Proof.
  assert (startup offline home_only = Ok default_settings) as Hoffline
    by (vm_compute; reflexivity).
  assert (startup empty_answer home_only = Ok default_settings) as Hempty
    by (vm_compute; reflexivity).
  split.
  - exact (proj1 (failures_reported offline home_only default_settings Hoffline)
             (Exn RequestException (py "timed out")) eq_refl).
  - rewrite (proj1 (proj2 (failures_reported empty_answer home_only default_settings Hempty))
               (VDict []) [] (Exn KeyError (py "'current'"))).
    + vm_compute. reflexivity.
    + reflexivity.
    + vm_compute. reflexivity.
Defined.

(** ** A run from end to end *)

(** The example of the specification: the sample payload, no environment
    file, the default settings.  The text starts with the sun and 20°C, and
    the feels-like line shows no adjustment. *)
Example sample_run :
  main sample_world home_only
  = Run (json_dumps
           [ (py "text", py "☀️ 20°C | Paris, FR");
             (py "tooltip",
              py "<b>Clear sky 20°C</b>" ++ [newline]
              ++ py "Feels like: 20.0°C" ++ [newline]
              ++ py "Wind: 10.5 km/h" ++ [newline]
              ++ py "Humidity: 50%" ++ [newline]
              ++ [newline] ++ py "<b>Today (2024-05-01)</b>" ++ [newline]
              ++ py "☀️ Clear sky" ++ [newline]
              ++ py "⬆️ 21.5°C ⬇️ 11°C" ++ [newline]
              ++ py "🌅 06:31 🌇 21:07" ++ [newline]
              ++ [newline] ++ py "<b>Day 2 (2024-05-02)</b>" ++ [newline]
              ++ py "🌧️ Slight rain" ++ [newline]
              ++ py "⬆️ 18°C ⬇️ 9.5°C" ++ [newline]
              ++ py "🌅 06:29 🌇 21:08" ++ [newline]) ]
         ++ [newline])
        (debug_prints default_settings) 0.
Proof. vm_compute. reflexivity. Qed.

(** The same payload with the settings of an environment file that asks for
    Fahrenheit, miles per hour and one day. *)
Example sample_run_imperial :
  stdout (main
            (World (λ path,
                      if bool_decide (path = py "/home/u/.local/state/hyde/config")
                      then Ok (File [ py "# units" ++ [newline];
                                      py "export WEATHER_TEMPERATURE_UNIT=F" ++ [newline];
                                      py "WEATHER_WINDSPEED_UNIT=mph" ++ [newline];
                                      py "WEATHER_FORECAST_DAYS=1" ++ [newline] ] None)
                      else no_file path)
                   (requests_get sample_world))
            home_only)
  = json_dumps
      [ (py "text", py "☀️ 68.0°F | Paris, FR");
        (py "tooltip",
         py "<b>Clear sky 68.0°F</b>" ++ [newline]
         ++ py "Feels like: 68.0°F" ++ [newline]
         ++ py "Wind: 6.5 mph" ++ [newline]
         ++ py "Humidity: 50%" ++ [newline]
         ++ [newline] ++ py "<b>Today (2024-05-01)</b>" ++ [newline]
         ++ py "☀️ Clear sky" ++ [newline]
         ++ py "⬆️ 70.7°F ⬇️ 51.8°F" ++ [newline]
         ++ py "🌅 06:31 🌇 21:07" ++ [newline]) ]
    ++ [newline].
Proof. vm_compute. reflexivity. Qed.

(** What [json.dumps] writes for the record of a failed fetch: ASCII only,
    the question mark as its escape. *)
Example weather_error_record :
  json_dumps [ (py "text", py "❓ Weather Error");
               (py "tooltip", py "Failed to get weather data: timed out") ]
  = py "{" ++ [dquote] ++ py "text" ++ [dquote] ++ py ": "
    ++ [dquote] ++ py "\u2753 Weather Error" ++ [dquote] ++ py ", "
    ++ [dquote] ++ py "tooltip" ++ [dquote] ++ py ": "
    ++ [dquote] ++ py "Failed to get weather data: timed out" ++ [dquote] ++ py "}".
Proof. vm_compute. reflexivity. Qed.

(** * Further properties *)

(** ** An environment file as a list of assignments *)

Lemma load_env_line_effect line :
  ∃ (upd : list (pystr * pystr)) r,
    ∀ env, load_env_line line env = (assign_all env upd, r).
Proof.
  unfold load_env_line.
  destruct (truthy (strip line) && negb (startswith (py "#") line));
    [|by exists [], (Ok ())].
  match goal with
  | |- context [split1 61 ?s] => destruct (split1 61 s) as [|key [|value [|]]]
  end; try by eexists [], (Raised _).
  unfold os_environ_set.
  destruct (bool_decide (NUL ∈ key) || bool_decide (NUL ∈ strip_chars [dquote] value));
    [by eexists [], _|].
  destruct (bool_decide (key = [])); [by eexists [], _|].
  by exists [(key, strip_chars [dquote] value)], (Ok ()).
Qed.

Lemma load_env_loop_effect lines :
  ∃ assignments r,
    ∀ env, py_for lines load_env_line env = (assign_all env assignments, r).
Proof.
  induction lines as [|line lines (rest & r & IH)].
  - by exists [], (Ok ()).
  - destruct (load_env_line_effect line) as (upd & [[]|e] & Hline).
    + exists (upd ++ rest), r. intros env. cbn [py_for]. unfold py_bind.
      rewrite Hline, IH. unfold assign_all. by rewrite foldl_app.
    + exists upd, (Raised e). intros env. cbn [py_for]. unfold py_bind.
      by rewrite Hline.
Qed.

(** The environment after loading: some assignments made to the one before,
    the same ones whatever it held. *)
Lemma load_env_file_effect fs path :
  ∃ assignments, ∀ env, (load_env_file fs path env).1 = assign_all env assignments.
Proof.
  unfold load_env_file, try_except_pass, load_env_body, py_bind, py_eval.
  destruct (fs path) as [[lines err]|e]; [|by exists []].
  destruct (load_env_loop_effect lines) as (assignments & r & Hloop).
  exists assignments. intros env. cbn [file_lines file_error]. rewrite Hloop.
  by destruct r as [[]|], err.
Qed.

Lemma load_env_file_ends fs path env : (load_env_file fs path env).2 = Ok ().
Proof.
  unfold load_env_file, try_except_pass. by destruct (load_env_body fs path env).
Qed.

Lemma assign_all_union env assignments :
  assign_all env assignments = list_to_map (reverse assignments) ∪ env.
Proof.
  revert env. induction assignments as [|[k v] l IH]; intros env.
  - cbn. by rewrite (left_id_L ∅ (∪)).
  - change (assign_all env ((k, v) :: l)) with (assign_all (<[k := v]> env) l).
    rewrite IH, reverse_cons, list_to_map_app. cbn [list_to_map foldr fst snd].
    rewrite <-(assoc_L (∪)). f_equal.
    by rewrite insert_union_singleton_l, insert_empty.
Qed.

Lemma assign_all_agree name env1 env2 assignments :
  agree_except name env1 env2 →
  agree_except name (assign_all env1 assignments) (assign_all env2 assignments).
Proof.
  intros Hagree k Hk. rewrite !assign_all_union, !lookup_union.
  by rewrite (Hagree k Hk).
Qed.

(** X1: loading a file only assigns: what it leaves is the environment it
    found with a list of assignments made to it, a list that the file and
    not the environment decides; and it ends without an exception. *)
Theorem load_env_file_only_assigns fs path :
  ∃ assignments,
    ∀ env, load_env_file fs path env = (assign_all env assignments, Ok ()).
Proof.
  destruct (load_env_file_effect fs path) as (assignments & Henv).
  exists assignments. intros env.
  rewrite <-Henv, <-(load_env_file_ends fs path env).
  by destruct (load_env_file fs path env).
Qed.

(** X2: loading the same file a second time changes nothing. *)
Theorem load_env_file_idempotent fs path env :
  load_env_file fs path (load_env_file fs path env).1 = load_env_file fs path env.
Proof.
  destruct (load_env_file_effect fs path) as (assignments & Henv).
  pose proof (load_env_file_ends fs path env) as Hend.
  pose proof (load_env_file_ends fs path (load_env_file fs path env).1) as Hend'.
  pose proof (Henv (load_env_file fs path env).1) as Hagain.
  rewrite (Henv env) in Hagain at 2.
  rewrite !assign_all_union, (assoc_L (∪)), (idemp_L (∪)), <-assign_all_union, <-Henv
    in Hagain.
  destruct (load_env_file fs path (load_env_file fs path env).1) as [env2 r2].
  destruct (load_env_file fs path env) as [env1 r1].
  cbn [fst snd] in *. by subst.
Qed.

(** X3: loading a file never unsets a variable: one that was set is still
    set afterwards, to its old value or to a new one. *)
Theorem load_env_file_never_unsets fs path env name :
  is_Some (env !! name) → is_Some ((load_env_file fs path env).1 !! name).
Proof.
  intros Hset. destruct (load_env_file_effect fs path) as (assignments & ->).
  rewrite assign_all_union, lookup_union_is_Some. by right.
Qed.

Lemma load_env_file_never_unsets_witness :
  is_Some ((load_env_file
              (λ _, Ok (File [py "WEATHER_LOCATION=1,2" ++ [newline]] None))
              (py "/home/u/.local/state/hyde/config") home_only).1 !! py "HOME").
Proof.
  apply load_env_file_never_unsets. by exists (py "/home/u").
Defined.

(** X4: a file that cannot be opened leaves the environment as it was, and
    an error while the file is read has no effect but to end the reading:
    the lines read before it are applied as if the file ended there. *)
Theorem unreadable_file_ignored fs path env :
  (∀ e, fs path = Raised e → load_env_file fs path env = (env, Ok ()))
  ∧ (∀ fs' lines e,
       fs path = Ok (File lines (Some e)) → fs' path = Ok (File lines None) →
       load_env_file fs path env = load_env_file fs' path env).
Proof.
  unfold load_env_file, try_except_pass, load_env_body, py_bind, py_eval.
  split.
  - by intros e ->.
  - intros fs' lines e -> ->. cbn [file_lines file_error].
    by destruct (py_for lines load_env_line env) as [env' [[]|]].
Qed.

Lemma unreadable_file_ignored_witness :
  load_env_file no_file (py "/home/u/.local/state/hyde/config") home_only
  = (home_only, Ok ())
  ∧ load_env_file
      (λ _, Ok (File [py "A=1" ++ [newline]]
                  (Some (Exn UnicodeDecodeError (py "invalid start byte")))))
      (py "/home/u/.local/state/hyde/config") ∅
    = load_env_file (λ _, Ok (File [py "A=1" ++ [newline]] None))
        (py "/home/u/.local/state/hyde/config") ∅.
Proof.
  split.
  - exact (proj1 (unreadable_file_ignored no_file _ home_only) _ eq_refl).
  - exact (proj2 (unreadable_file_ignored _ (py "/home/u/.local/state/hyde/config") ∅)
             (λ _, Ok (File [py "A=1" ++ [newline]] None)) _ _ eq_refl eq_refl).
Defined.

(** ** Names, indentation and the export prefix *)

Lemma startswith_other p0 (p : pystr) c (s : pystr) :
  p0 ≠ c → startswith (p0 :: p) (c :: s) = false.
Proof. intros Hne. cbn [startswith]. by destruct (N.eqb_spec p0 c). Qed.

(** A line that begins with white space begins with no text. *)
Lemma startswith_indented p0 (p indent s : pystr) :
  isspace p0 = false → indent ≠ [] → blank indent →
  startswith (p0 :: p) (indent ++ s) = false.
Proof.
  intros Hp0 Hne Hblank. destruct indent as [|w indent]; [done|].
  apply startswith_other. intros ->.
  apply Forall_inv in Hblank. by rewrite Hblank in Hp0.
Qed.

Lemma strip_indented (indent s : pystr) : blank indent → strip (indent ++ s) = strip s.
Proof. intros Hblank. unfold strip, strip_with. by rewrite lstrip_with_all. Qed.

Lemma lstrip_with_snoc p (s : pystr) c :
  p c = false → lstrip_with p (s ++ [c]) = lstrip_with p s ++ [c].
Proof.
  intros Hc. induction s as [|x s IH]; cbn [lstrip_with app].
  - by rewrite Hc.
  - by destruct (p x).
Qed.

Lemma rstrip_with_cons p c (s : pystr) :
  p c = false → rstrip_with p (c :: s) = c :: rstrip_with p s.
Proof.
  intros Hc. unfold rstrip_with.
  by rewrite reverse_cons, lstrip_with_snoc, reverse_snoc.
Qed.

(** What the loop body does on a line [NAME=VALUE] that is no comment and
    has no export prefix, whatever the name is made of. *)
Lemma load_env_line_named indent c name value ending env :
  blank indent → isspace c = false →
  61%N ∉ c :: name → NUL ∉ c :: name →
  is_value value → blank ending →
  startswith (py "#") (indent ++ (c :: name) ++ [61%N] ++ value ++ ending) = false →
  startswith (py "export ") (indent ++ (c :: name) ++ [61%N] ++ value ++ ending) = false →
  load_env_line (indent ++ (c :: name) ++ [61%N] ++ value ++ ending) env
  = (<[c :: name := unquoted value]> env, Ok ()).
Proof.
  intros Hindent Hc Hno_eq Hno_nul Hvalue Hending Hcomment Hexport.
  assert (strip (indent ++ (c :: name) ++ [61%N] ++ value ++ ending)
          = (c :: name) ++ 61%N :: value) as Hstrip.
  { rewrite strip_indented by done. by apply (strip_key_value c name). }
  unfold load_env_line. rewrite Hcomment, Hexport, Hstrip.
  cbn [app truthy negb andb]. rewrite app_comm_cons, split1_at by done.
  unfold os_environ_set, unquoted.
  rewrite bool_decide_eq_false_2 by done.
  rewrite bool_decide_eq_false_2.
  2:{ intros Hin%elem_of_strip_with. by destruct Hvalue. }
  by rewrite bool_decide_eq_false_2.
Qed.

(** X5: the name of the variable is the text before the first [=] as it
    stands, and the value the text after it: of a line that is neither a
    comment nor starts with [export ], only the white space at its two ends
    is dropped, so that white space around the [=] and inside the name
    becomes part of the name and of the value. *)
Theorem name_is_text_before_first_equals line indent name value ending env :
  line = indent ++ name ++ [61%N] ++ value ++ ending →
  blank indent → blank ending →
  startswith (py "#") line = false →
  startswith (py "export ") line = false →
  name ≠ [] → (∀ c, head name = Some c → isspace c = false) →
  61%N ∉ name → NUL ∉ name → is_value value →
  load_env_line line env = (<[name := unquoted value]> env, Ok ()).
Proof.
  intros -> Hindent Hending Hcomment Hexport Hne Hhead Hno_eq Hno_nul Hvalue.
  destruct name as [|c name]; [done|].
  apply load_env_line_named; auto.
Qed.

(** The line [A = 1]: the variable is [A ] with its space, the value [ 1]
    with its own. *)
Lemma name_is_text_before_first_equals_witness :
  load_env_line (py "A = 1" ++ [newline]) ∅ = ({[ py "A " := py " 1" ]}, Ok ()).
Proof.
  rewrite (name_is_text_before_first_equals
             (py "A = 1" ++ [newline]) [] (py "A ") (py " 1") [newline] ∅).
  - vm_compute. reflexivity.
  - reflexivity.
  - constructor.
  - unfold blank. by_evaluation.
  - reflexivity.
  - reflexivity.
  - discriminate.
  - intros c [= <-]. reflexivity.
  - by_evaluation.
  - by_evaluation.
  - split; [by_evaluation|]. intros c [= <-]. reflexivity.
Defined.

Lemma export_name_facts key :
  is_name key →
  (61%N ∉ py "export " ++ key) ∧ (NUL ∉ py "export " ++ key)
  ∧ (61%N ∉ py "#" ++ key) ∧ (NUL ∉ py "#" ++ key).
Proof.
  intros [_ Hkey].
  assert (61%N ∉ key) as Hno_eq.
  { intros Hin. eapply Forall_forall in Hkey; [|exact Hin].
    by apply name_char_facts in Hkey as (_ & ? & _). }
  assert (NUL ∉ key) as Hno_nul.
  { intros Hin. eapply Forall_forall in Hkey; [|exact Hin].
    by apply name_char_facts in Hkey as (_ & _ & ? & _). }
  repeat split; rewrite not_elem_of_app; (split; [by_evaluation | done]).
Qed.

(** X6: a comment and the export prefix are recognised at the very start
    of the line only.  After indentation, [export KEY=VALUE] sets a variable
    whose name is [export KEY], and [#KEY=VALUE] one whose name is [#KEY]. *)
Theorem export_and_comment_need_column_zero indent key value ending env :
  indent ≠ [] → blank indent → is_name key → is_value value → blank ending →
  load_env_line (indent ++ py "export " ++ key ++ [61%N] ++ value ++ ending) env
  = (<[py "export " ++ key := unquoted value]> env, Ok ())
  ∧ load_env_line (indent ++ py "#" ++ key ++ [61%N] ++ value ++ ending) env
    = (<[py "#" ++ key := unquoted value]> env, Ok ()).
Proof.
  intros Hne Hindent Hkey Hvalue Hending.
  destruct (export_name_facts key Hkey) as (He_eq & He_nul & Hc_eq & Hc_nul).
  split.
  - assert (py "export " ++ key ++ [61%N] ++ value ++ ending
            = (101%N :: py "xport " ++ key) ++ [61%N] ++ value ++ ending) as ->.
    { change (py "export ") with (101%N :: py "xport "). reflexivity. }
    change (py "export " ++ key) with (101%N :: py "xport " ++ key) in *.
    apply load_env_line_named; try done.
    + by apply startswith_indented.
    + by apply startswith_indented.
  - assert (py "#" ++ key ++ [61%N] ++ value ++ ending
            = (35%N :: key) ++ [61%N] ++ value ++ ending) as -> by done.
    change (py "#" ++ key) with (35%N :: key) in *.
    apply load_env_line_named; try done.
    + by apply startswith_indented.
    + by apply startswith_indented.
Qed.

(** Two spaces before [export A=1] and before [#B=2]. *)
Lemma export_and_comment_need_column_zero_witness :
  load_env_line (py "  export A=1" ++ [newline]) ∅ = ({[ py "export A" := py "1" ]}, Ok ())
  ∧ load_env_line (py "  #A=1" ++ [newline]) ∅ = ({[ py "#A" := py "1" ]}, Ok ()).
Proof.
  assert (py "  " ≠ []) as Hne by discriminate.
  assert (blank (py "  ")) as Hindent by (unfold blank; by_evaluation).
  assert (is_name (py "A")) as Hkey by (unfold is_name; by_evaluation).
  assert (is_value (py "1")) as Hvalue.
  { split; [by_evaluation|]. by intros c [= <-]. }
  assert (blank [newline]) as Hending by (unfold blank; by_evaluation).
  destruct (export_and_comment_need_column_zero
              (py "  ") (py "A") (py "1") [newline] ∅ Hne Hindent Hkey Hvalue Hending)
    as [Hexport Hcomment].
  split.
  - etrans; [exact Hexport|]. vm_compute. reflexivity.
  - etrans; [exact Hcomment|]. vm_compute. reflexivity.
Defined.

(** X7: a line without a name, [=VALUE], cannot be applied: it raises, so
    it ends the loading, and the environment is left as it was. *)
Theorem line_without_name_fails indent rest :
  blank indent → fails (indent ++ [61%N] ++ rest).
Proof.
  intros Hindent env. unfold load_env_line.
  assert (startswith (py "#") (indent ++ [61%N] ++ rest) = false) as ->.
  { destruct indent as [|w indent]; [done|]. by apply startswith_indented. }
  assert (startswith (py "export ") (indent ++ [61%N] ++ rest) = false) as ->.
  { destruct indent as [|w indent]; [done|]. by apply startswith_indented. }
  rewrite strip_indented by done.
  unfold strip, strip_with. cbn [app lstrip_with].
  change (isspace 61) with false. cbn iota.
  rewrite rstrip_with_cons by done.
  cbn [truthy negb andb split1]. rewrite N.eqb_refl.
  unfold os_environ_set.
  repeat case_bool_decide; cbn [orb]; first [done | by eexists].
Qed.

(** The line [=1] after the line [A=1]: [A] is set and nothing is raised. *)
Lemma line_without_name_fails_witness :
  ∃ e, load_env_line (py "=1" ++ [newline]) {[ py "A" := py "1" ]}
       = ({[ py "A" := py "1" ]}, Raised e).
Proof.
  apply (line_without_name_fails [] (py "1" ++ [newline])). constructor.
Defined.

(** ** Settings that are always valid, and settings that are never read *)

Section validation.
Context `{PyBuiltins}.

(** X8: whatever the environment holds, the settings that leave
    [configure] are valid: the temperature unit is [c] or [f], the time
    format [12h] or [24h], the unit of the wind speed [km/h] or [mph], and
    the number of forecast days is 1, 2 or 3. *)
Theorem settings_always_valid env :
  temp_unit (configure env) ∈ [py "c"; py "f"]
  ∧ time_format (configure env) ∈ [py "12h"; py "24h"]
  ∧ windspeed_unit (configure env) ∈ [py "km/h"; py "mph"]
  ∧ 1 ≤ FORECAST_DAYS (configure env) ≤ 3.
Proof.
  unfold configure. cbv zeta.
  cbn [temp_unit time_format windspeed_unit FORECAST_DAYS].
  repeat split.
  - case_bool_decide as Hunit; [by_evaluation|].
    by destruct (decide (str_lower (getenv env (py "WEATHER_TEMPERATURE_UNIT") (py "c"))
                           ∈ [py "c"; py "f"])).
  - case_bool_decide as Hformat; [by_evaluation|].
    by destruct (decide (str_lower (getenv env (py "WEATHER_TIME_FORMAT") (py "12h"))
                           ∈ [py "12h"; py "24h"])).
  - case_bool_decide as Hunit; [by_evaluation|].
    by destruct (decide (str_lower (getenv env (py "WEATHER_WINDSPEED_UNIT") (py "km/h"))
                           ∈ [py "km/h"; py "mph"])).
  - case_bool_decide; lia.
  - case_bool_decide; lia.
Qed.

Lemma getenv_agree name env1 env2 k fallback :
  agree_except name env1 env2 → k ≠ name → getenv env1 k fallback = getenv env2 k fallback.
Proof. intros Hagree Hk. unfold getenv. by rewrite (Hagree k Hk). Qed.

Lemma flag_agree name env1 env2 k :
  agree_except name env1 env2 → k ≠ name → flag env1 k = flag env2 k.
Proof. intros Hagree Hk. unfold flag. by rewrite (getenv_agree _ _ _ _ _ Hagree Hk). Qed.

(** The settings of two environments that differ in the time format or in
    the switch for today's details give the same report. *)
Lemma configure_agree name env1 env2 :
  name ∈ [py "WEATHER_TIME_FORMAT"; py "WEATHER_SHOW_TODAY_DETAILS"] →
  agree_except name env1 env2 →
  same_report (configure env1) (configure env2).
Proof.
  intros Hname Hagree.
  assert (py "WEATHER_TEMPERATURE_UNIT" ≠ name ∧ py "WEATHER_WINDSPEED_UNIT" ≠ name
          ∧ py "WEATHER_SHOW_ICON" ≠ name ∧ py "WEATHER_SHOW_LOCATION" ≠ name
          ∧ py "WEATHER_FORECAST_DAYS" ≠ name ∧ py "WEATHER_LOCATION" ≠ name)
    as (Htemp & Hwind & Hicon & Hplace & Hdays & Hlocation).
  { apply elem_of_cons in Hname as [->|Hname]; [repeat split; by_evaluation|].
    apply list_elem_of_singleton in Hname as ->. repeat split; by_evaluation. }
  unfold same_report, configure. cbv zeta.
  cbn [temp_unit windspeed_unit show_icon show_location FORECAST_DAYS lat lon].
  rewrite (getenv_agree _ _ _ _ (py "c") Hagree Htemp).
  rewrite (getenv_agree _ _ _ _ (py "km/h") Hagree Hwind).
  rewrite (getenv_agree _ _ _ _ (py "3") Hagree Hdays).
  rewrite (getenv_agree _ _ _ _ (py "48.8566,2.3522") Hagree Hlocation).
  rewrite (flag_agree _ _ _ _ Hagree Hicon), (flag_agree _ _ _ _ Hagree Hplace).
  done.
Qed.

Lemma same_report_fetch w cfg1 cfg2 :
  same_report cfg1 cfg2 → fetch w cfg1 = fetch w cfg2.
Proof.
  intros (_ & _ & _ & _ & _ & Hlat & Hlon). unfold fetch, URL.
  by rewrite Hlat, Hlon.
Qed.

Lemma same_report_process cfg1 cfg2 weather :
  same_report cfg1 cfg2 → process cfg1 weather = process cfg2 weather.
Proof.
  intros (Hunit & Hwind & Hicon & Hplace & Hdays & _ & _).
  unfold process, get_temperature, get_feels_like, get_wind_speed, forecast_day.
  by rewrite Hunit, Hwind, Hicon, Hplace, Hdays.
Qed.

(** What a report prints and how it ends depend on the settings it reads. *)
Lemma report_same w cfg1 cfg2 :
  same_report cfg1 cfg2 →
  stdout (report w cfg1) = stdout (report w cfg2)
  ∧ exit_code (report w cfg1) = exit_code (report w cfg2).
Proof.
  intros Hsame. unfold report. cbv zeta.
  rewrite (same_report_fetch w _ _ Hsame).
  destruct (fetch w cfg2) as [weather|e]; [|by cbn [stdout exit_code]].
  rewrite (same_report_process _ _ weather Hsame).
  destruct (process cfg2 weather []) as [data [[]|e]]; by cbn [stdout exit_code].
Qed.

Lemma startup_agree w name env1 env2 :
  name ≠ py "HOME" →
  agree_except name env1 env2 →
  (∃ e, startup w env1 = Raised e ∧ startup w env2 = Raised e)
  ∨ (∃ env1' env2',
       agree_except name env1' env2'
       ∧ startup w env1 = Ok (configure env1') ∧ startup w env2 = Ok (configure env2')).
Proof.
  intros Hhome Hagree. unfold startup.
  rewrite (Hagree (py "HOME")) by done.
  destruct (os_path_join (env2 !! py "HOME") _) as [staterc|e];
    cbn [mbind outcome_bind]; [|left; by exists e].
  destruct (load_env_file_effect (fs w) staterc) as (first & Hfirst).
  rewrite !Hfirst.
  pose proof (assign_all_agree name env1 env2 first Hagree) as Hagree1.
  rewrite (Hagree1 (py "HOME")) by done.
  destruct (os_path_join (assign_all env2 first !! py "HOME") _) as [config_file|e];
    cbn [mbind outcome_bind]; [|left; by exists e].
  destruct (load_env_file_effect (fs w) config_file) as (second & Hsecond).
  rewrite !Hsecond.
  right. eexists _, _. split; [|done]. by apply assign_all_agree.
Qed.

(** X9: the time format and the switch for today's details are read,
    validated and logged, and then never used: whatever value
    [WEATHER_TIME_FORMAT] or [WEATHER_SHOW_TODAY_DETAILS] has in the
    environment, the script prints the same record and ends with the same
    status.  Times are shown as the server sent them. *)
Theorem time_format_and_today_details_unused w env name value :
  name ∈ [py "WEATHER_TIME_FORMAT"; py "WEATHER_SHOW_TODAY_DETAILS"] →
  stdout (main w (<[name := value]> env)) = stdout (main w env)
  ∧ exit_code (main w (<[name := value]> env)) = exit_code (main w env).
Proof.
  intros Hname.
  assert (name ≠ py "HOME") as Hhome.
  { apply elem_of_cons in Hname as [->|Hname]; [by_evaluation|].
    apply list_elem_of_singleton in Hname as ->. by_evaluation. }
  assert (agree_except name (<[name := value]> env) env) as Hagree.
  { intros k Hk. by rewrite lookup_insert_ne. }
  unfold main.
  destruct (startup_agree w name _ _ Hhome Hagree)
    as [(e & -> & ->)|(env1 & env2 & Hagree' & -> & ->)]; cbv beta iota; [done|].
  apply report_same. exact (configure_agree name env1 env2 Hname Hagree').
Qed.

End validation.

(** The sample with [WEATHER_TIME_FORMAT=24h]: the same record as without. *)
Lemma time_format_and_today_details_unused_witness :
  stdout (main sample_world (<[py "WEATHER_TIME_FORMAT" := py "24h"]> home_only))
  = stdout (main sample_world home_only).
Proof.
  refine (proj1 (time_format_and_today_details_unused sample_world home_only
                   (py "WEATHER_TIME_FORMAT") (py "24h") _)).
  by_evaluation.
Defined.

(** ** What a run prints and how it ends *)

Lemma hex_digit_printable n : (n < 16)%N → printable (hex_digit n).
Proof.
  unfold printable, hex_digit. intros Hn.
  destruct (N.ltb_spec n 10); lia.
Qed.

Lemma hex4_printable c : Forall printable (hex4 c).
Proof.
  unfold hex4.
  repeat (apply List.Forall_cons; [apply hex_digit_printable; by apply N.mod_lt|]).
  apply List.Forall_nil.
Qed.

Lemma json_escape_printable c : Forall printable (json_escape c).
Proof.
  assert (printable 92 ∧ printable 34 ∧ printable 110 ∧ printable 114 ∧ printable 116
          ∧ printable 102 ∧ printable 98 ∧ printable 117)
    as (? & ? & ? & ? & ? & ? & ? & ?) by (unfold printable; lia).
  unfold json_escape.
  repeat match goal with
         | |- Forall printable (if ?b then _ else _) => destruct b eqn:?
         end;
    rewrite ?Forall_app; repeat split;
    repeat (apply List.Forall_cons; [assumption|]);
    try apply List.Forall_nil; try apply hex4_printable.
  apply Forall_singleton. unfold printable.
  match goal with
  | Hc : _ && _ = true |- _ => apply andb_true_iff in Hc as [?%N.leb_le ?%N.leb_le]
  end.
  lia.
Qed.

Lemma json_string_printable s : Forall printable (json_string s).
Proof.
  unfold json_string. rewrite !Forall_app. repeat split.
  - apply Forall_singleton. unfold printable, dquote. lia.
  - induction s as [|c s IH]; cbn [fmap list_fmap mjoin list_join]; [constructor|].
    rewrite Forall_app. split; [apply json_escape_printable | exact IH].
  - apply Forall_singleton. unfold printable, dquote. lia.
Qed.

Lemma join_printable sep l :
  Forall printable sep → Forall (Forall printable) l → Forall printable (join sep l).
Proof.
  intros Hsep. induction 1 as [|x l Hx Hl IH]; [constructor|].
  destruct l as [|y l]; [exact Hx|].
  change (join sep (x :: y :: l)) with (x ++ sep ++ join sep (y :: l)).
  rewrite !Forall_app. auto.
Qed.

(** A text is seen to be printable by looking at its characters. *)
Lemma literal_printable (s : pystr) :
  forallb (λ c, (32 <=? c) && (c <=? 126))%N s = true → Forall printable s.
Proof.
  induction s as [|c s IH]; cbn [forallb]; [constructor|].
  intros [[Hlo%N.leb_le Hhi%N.leb_le]%andb_true_iff Hs]%andb_true_iff.
  constructor; [done | by apply IH].
Qed.

(** What [json.dumps] writes is printable ASCII: it has no newline. *)
Lemma json_dumps_printable data : Forall printable (json_dumps data).
Proof.
  unfold json_dumps. rewrite !Forall_app. repeat split.
  - by apply literal_printable.
  - apply join_printable; [by apply literal_printable|].
    apply Forall_fmap, Forall_forall. intros [k v] _. unfold compose. cbn [fst snd].
    rewrite !Forall_app. repeat split; try apply json_string_printable.
    by apply literal_printable.
  - by apply literal_printable.
Qed.

Section output.
Context `{PyBuiltins}.

(** With [HOME] set, the settings are reached: no file can unset it. *)
Lemma startup_with_home w env home :
  env !! py "HOME" = Some home → ∃ cfg, startup w env = Ok cfg.
Proof.
  intros Hhome. unfold startup. rewrite Hhome.
  cbn [os_path_join mbind outcome_bind].
  match goal with
  | |- context [load_env_file (fs w) ?p env] =>
    destruct (load_env_file_effect (fs w) p) as (first & Hfirst)
  end.
  rewrite Hfirst.
  assert (is_Some (assign_all env first !! py "HOME")) as [home' ->].
  { rewrite assign_all_union, lookup_union_is_Some. right. by exists home. }
  cbn [os_path_join mbind outcome_bind]. by eexists.
Qed.

(** The record of a report: the text and the tooltip, in that order. *)
Lemma report_record w cfg :
  ∃ text tip,
    stdout (report w cfg)
    = json_dumps [(py "text", text); (py "tooltip", tip)] ++ [newline].
Proof.
  unfold report. cbv zeta.
  destruct (fetch w cfg) as [weather|e].
  - destruct (process cfg weather []) as [data [[]|e]] eqn:Hrun.
    + apply process_ok in Hrun
        as (current & daily & temperature & icon & head & days & blocks
            & _ & _ & _ & _ & _ & _ & _ & _ & ->).
      cbn [stdout]. by exists (text_line cfg icon temperature), (head ++ mjoin blocks).
    + cbn [stdout]. rewrite (handler_record _ _ _ (process_raised _ _ _ _ Hrun)).
      by exists (py "❓ Processing Error"),
                (py "Failed to process weather data: " ++ exn_str e).
  - cbn [stdout]. rewrite (handler_record _ _ [] (or_introl eq_refl)).
    by exists (py "❓ Weather Error"), (py "Failed to get weather data: " ++ exn_str e).
Qed.

(** X10: without [HOME] in the environment the script ends before it has
    read a file or asked the server: [os.path.join] raises [TypeError] on
    [None], nothing catches it, nothing is printed to standard output and
    the exit status is 1. *)
Theorem no_home_no_output w env :
  env !! py "HOME" = None →
  main w env
  = Run [] (format_exc (Exn TypeError
                          (py "expected str, bytes or os.PathLike object, not NoneType")))
        1.
Proof. intros Hhome. unfold main, startup. by rewrite Hhome. Qed.

(** X11: with [HOME] set, whatever the files hold and whatever the server
    answers, standard output is exactly one line: a JSON object with the two
    members [text] and [tooltip], in that order, in printable ASCII (so with
    no newline inside), and the newline that ends it. *)
Theorem stdout_is_one_json_line w env home :
  env !! py "HOME" = Some home →
  ∃ text tip,
    stdout (main w env)
    = json_dumps [(py "text", text); (py "tooltip", tip)] ++ [newline]
    ∧ Forall printable (json_dumps [(py "text", text); (py "tooltip", tip)])
    ∧ newline ∉ json_dumps [(py "text", text); (py "tooltip", tip)].
Proof.
  intros Hhome. destruct (startup_with_home w env home Hhome) as (cfg & Hcfg).
  unfold main. rewrite Hcfg.
  destruct (report_record w cfg) as (text & tip & ->).
  exists text, tip. split; [done|]. split; [apply json_dumps_printable|].
  intros Hin.
  pose proof (json_dumps_printable [(py "text", text); (py "tooltip", tip)]) as Hall.
  eapply Forall_forall in Hall; [|exact Hin].
  unfold printable, newline in Hall. lia.
Qed.

(** X12: the exit status is 0 or 1, and it is 0 exactly when the settings
    were reached and the server was fetched from: a payload that cannot be
    processed ends the script with status 0 like one that can. *)
Theorem exit_status_tells_the_fetch w env :
  exit_code (main w env) ∈ [0; 1]
  ∧ (exit_code (main w env) = 0
     ↔ ∃ cfg weather, startup w env = Ok cfg ∧ fetch w cfg = Ok weather).
Proof.
  unfold main.
  destruct (startup w env) as [cfg|e0]; cbv beta iota.
  - unfold report. cbv zeta.
    destruct (fetch w cfg) as [weather|e] eqn:Hfetch.
    + assert (exit_code
                match process cfg weather [] with
                | (data, Ok _) =>
                  Run (json_dumps data ++ [newline]) (debug_prints cfg) 0
                | (data, Raised e) =>
                  Run (json_dumps
                         (dict_set (py "tooltip")
                            (py "Failed to process weather data: " ++ exn_str e)
                            (dict_set (py "text") (py "❓ Processing Error") data))
                       ++ [newline])
                      (debug_prints cfg ++ py "ERROR: " ++ format_exc e ++ [newline]) 0
                end = 0) as ->.
      { by destruct (process cfg weather []) as [data [[]|e]]. }
      split; [set_solver|]. split; [|done]. intros _. by exists cfg, weather.
    + cbn [exit_code]. split; [set_solver|]. split; [done|].
      intros (cfg' & weather & [= <-] & Hok). by rewrite Hfetch in Hok.
  - cbn [uncaught exit_code]. split; [set_solver|]. split; [done|].
    by intros (cfg & weather & ? & _).
Qed.

End output.

(** An empty environment. *)
Lemma no_home_no_output_witness :
  stdout (main sample_world ∅) = [] ∧ exit_code (main sample_world ∅) = 1.
Proof.
  by rewrite (no_home_no_output sample_world ∅ (lookup_empty (py "HOME"))).
Defined.

(** An answer that is no weather: one line all the same. *)
Lemma stdout_is_one_json_line_witness :
  ∃ text tip,
    stdout (main empty_answer home_only)
    = json_dumps [(py "text", text); (py "tooltip", tip)] ++ [newline]
    ∧ Forall printable (json_dumps [(py "text", text); (py "tooltip", tip)])
    ∧ newline ∉ json_dumps [(py "text", text); (py "tooltip", tip)].
Proof.
  apply (stdout_is_one_json_line empty_answer home_only (py "/home/u")).
  reflexivity.
Defined.

(** The server answers with an empty object: status 0. *)
Lemma exit_status_tells_the_fetch_witness :
  exit_code (main empty_answer home_only) = 0.
Proof.
  apply (proj2 (exit_status_tells_the_fetch empty_answer home_only)).
  exists default_settings, (VDict []). split; vm_compute; reflexivity.
Defined.

(** ** Numbers as they are shown *)

(** A property of the integers from [lo] on, checked one by one. *)
Lemma checked_between (P : Z → bool) lo n :
  forallb P (seqZ lo n) = true → ∀ k, lo ≤ k < lo + n → P k = true.
Proof.
  intros Hall k Hk. rewrite forallb_forall in Hall. apply Hall.
  apply list_elem_of_In, elem_of_seqZ. lia.
Qed.

Lemma shows_spec o s : shows o s = true → o = Ok s.
Proof.
  destruct o as [t|e]; cbn [shows]; [|done].
  by intros ->%bool_decide_eq_true.
Qed.

Lemma mph_ne_kmh : py "mph" ≠ py "km/h".
Proof. by_evaluation. Qed.

(** Readings from -100.0 to 100.0 degrees, and whole degrees from -1000 to
    1000, in Fahrenheit. *)
Lemma fahrenheit_checked :
  forallb (λ k, shows (fahrenheit_text (reading k))
                  (one_decimal_exact (9 * k + 1600) 50 ++ py "°F"))
    (seqZ (-1000) 2001) = true
  ∧ forallb (λ c, shows (fahrenheit_text (VInt c))
                    (one_decimal_exact (9 * c + 160) 5 ++ py "°F"))
      (seqZ (-1000) 2001) = true.
Proof. split; vm_compute; reflexivity. Qed.

(** The same readings as they are felt, in both units, in dry and in humid
    air. *)
Lemma felt_checked (humid : bool) :
  forallb (λ k, shows ((if humid then py_add_int (reading k) 2 else Ok (reading k))
                       ≫= λ v, one_decimal v (py "°C"))
                  (one_decimal_exact (k + felt_tenths humid) 10 ++ py "°C"))
    (seqZ (-1000) 2001) = true
  ∧ forallb (λ k, shows ((if humid then py_add_int (reading k) 2 else Ok (reading k))
                         ≫= fahrenheit_text)
                    (one_decimal_exact (9 * (k + felt_tenths humid) + 1600) 50 ++ py "°F"))
      (seqZ (-1000) 2001) = true.
Proof. destruct humid; split; vm_compute; reflexivity. Qed.

(** Wind speeds from 0.0 to 300.0 km/h, and whole ones from 0 to 1000, in
    miles per hour. *)
Lemma mph_checked :
  forallb (λ k, shows (py_mul_float (reading k) mph_per_kmh
                       ≫= λ m, one_decimal m (py " mph"))
                  (one_decimal_exact (k * 621371) (10 ^ 7) ++ py " mph"))
    (seqZ 0 3001) = true
  ∧ forallb (λ n, shows (py_mul_float (VInt n) mph_per_kmh
                         ≫= λ m, one_decimal m (py " mph"))
                    (one_decimal_exact (n * 621371) (10 ^ 6) ++ py " mph"))
      (seqZ 0 1001) = true.
Proof. split; vm_compute; reflexivity. Qed.

Section numbers.
Context `{PyBuiltins}.

Lemma get_temperature_fahrenheit cfg current t :
  temp_unit cfg = py "f" →
  getitem current (py "temperature_2m") = Ok t →
  get_temperature cfg current = fahrenheit_text t.
Proof.
  intros Hunit Ht. unfold get_temperature.
  rewrite bool_decide_eq_false_2 by (rewrite Hunit; exact f_ne_c).
  rewrite Ht. cbn [mbind outcome_bind]. by rewrite fahrenheit_text_unfold.
Qed.

Lemma get_wind_speed_mph cfg current w :
  windspeed_unit cfg = py "mph" →
  getitem current (py "wind_speed_10m") = Ok w →
  get_wind_speed cfg current
  = py_mul_float w mph_per_kmh ≫= λ m, one_decimal m (py " mph").
Proof.
  intros Hunit Hw. unfold get_wind_speed, one_decimal.
  rewrite bool_decide_eq_false_2 by (rewrite Hunit; exact mph_ne_kmh).
  by rewrite Hw.
Qed.

(** X13: in Fahrenheit the current temperature is shown exactly.  For a
    reading with one decimal between -100.0 and 100.0 degrees Celsius, and
    for a whole number of degrees between -1000 and 1000, the text is the
    exact value of [c * 9 / 5 + 32] rounded to one decimal: the rounding of
    the three floating-point operations never shows.  A value below zero
    that rounds to zero keeps its sign. *)
Theorem fahrenheit_shown_exactly cfg current :
  temp_unit cfg = py "f" →
  (∀ k, -1000 ≤ k ≤ 1000 →
        getitem current (py "temperature_2m") = Ok (reading k) →
        get_temperature cfg current
        = Ok (one_decimal_exact (9 * k + 1600) 50 ++ py "°F"))
  ∧ (∀ c, -1000 ≤ c ≤ 1000 →
          getitem current (py "temperature_2m") = Ok (VInt c) →
          get_temperature cfg current
          = Ok (one_decimal_exact (9 * c + 160) 5 ++ py "°F")).
Proof.
  intros Hunit. destruct fahrenheit_checked as [Hreadings Hwhole]. split.
  - intros k Hk Ht. rewrite (get_temperature_fahrenheit _ _ _ Hunit Ht).
    apply shows_spec.
    apply (checked_between _ _ _ Hreadings). lia.
  - intros c Hc Ht. rewrite (get_temperature_fahrenheit _ _ _ Hunit Ht).
    apply shows_spec.
    apply (checked_between _ _ _ Hwhole). lia.
Qed.

(** X14: the temperature that is felt is shown exactly, in both units.  For
    a reading with one decimal between -100.0 and 100.0 degrees Celsius and
    a whole number as the humidity, the text is the reading, two degrees
    more when the humidity is above 70, written with one decimal in Celsius,
    and converted exactly and rounded to one decimal in Fahrenheit. *)
Theorem feels_like_shown_exactly cfg current k h :
  -1000 ≤ k ≤ 1000 →
  getitem current (py "temperature_2m") = Ok (reading k) →
  getitem current (py "relative_humidity_2m") = Ok (VInt h) →
  (temp_unit cfg = py "c" →
   get_feels_like cfg current
   = Ok (one_decimal_exact (k + felt_tenths (70 <? h)) 10 ++ py "°C"))
  ∧ (temp_unit cfg = py "f" →
     get_feels_like cfg current
     = Ok (one_decimal_exact (9 * (k + felt_tenths (70 <? h)) + 1600) 50 ++ py "°F")).
Proof.
  intros Hk Ht Hh.
  rewrite (feels_like_unfold cfg current (reading k) (VInt h) (70 <? h) Ht Hh eq_refl).
  destruct (felt_checked (70 <? h)) as [Hcelsius Hfahrenheit].
  unfold feels_like_text. split; intros Hunit.
  - rewrite bool_decide_eq_true_2 by done.
    apply shows_spec. apply (checked_between _ _ _ Hcelsius). lia.
  - rewrite bool_decide_eq_false_2 by (rewrite Hunit; exact f_ne_c).
    apply shows_spec. apply (checked_between _ _ _ Hfahrenheit). lia.
Qed.

(** X15: in miles per hour the wind speed is shown exactly.  For a reading
    with one decimal between 0.0 and 300.0 km/h, and for a whole number of
    km/h up to 1000, the text is the exact product with 0.621371 rounded to
    one decimal. *)
Theorem wind_speed_shown_exactly cfg current :
  windspeed_unit cfg = py "mph" →
  (∀ k, 0 ≤ k ≤ 3000 →
        getitem current (py "wind_speed_10m") = Ok (reading k) →
        get_wind_speed cfg current
        = Ok (one_decimal_exact (k * 621371) (10 ^ 7) ++ py " mph"))
  ∧ (∀ n, 0 ≤ n ≤ 1000 →
          getitem current (py "wind_speed_10m") = Ok (VInt n) →
          get_wind_speed cfg current
          = Ok (one_decimal_exact (n * 621371) (10 ^ 6) ++ py " mph")).
Proof.
  intros Hunit. destruct mph_checked as [Hreadings Hwhole]. split.
  - intros k Hk Hw. rewrite (get_wind_speed_mph _ _ _ Hunit Hw).
    apply shows_spec. apply (checked_between _ _ _ Hreadings). lia.
  - intros n Hn Hw. rewrite (get_wind_speed_mph _ _ _ Hunit Hw).
    apply shows_spec. apply (checked_between _ _ _ Hwhole). lia.
Qed.

(** X16: in km/h the wind speed is shown as the server gave it, whatever
    it is, a [null] as [None]; in miles per hour a speed that is not a
    number makes [get_wind_speed] raise [TypeError].  Without the key, the
    exception of the lookup is raised in both units. *)
Theorem wind_speed_as_given_or_refused cfg current :
  (∀ w, getitem current (py "wind_speed_10m") = Ok w →
        (windspeed_unit cfg = py "km/h" → deliverable w = true →
         get_wind_speed cfg current = Ok (py_str w ++ py " km/h"))
        ∧ (windspeed_unit cfg = py "mph" → is_number w = false →
           ∃ message, get_wind_speed cfg current = Raised (Exn TypeError message)))
  ∧ (∀ e, getitem current (py "wind_speed_10m") = Raised e →
          get_wind_speed cfg current = Raised e).
Proof.
  split.
  - intros w Hw. split.
    + intros Hunit _. unfold get_wind_speed.
      rewrite bool_decide_eq_true_2 by done. by rewrite Hw.
    + intros Hunit Hnumber. rewrite (get_wind_speed_mph _ _ _ Hunit Hw).
      destruct w; try discriminate Hnumber; by eexists.
  - intros e He. unfold get_wind_speed. rewrite He. by case_bool_decide.
Qed.

End numbers.

(** Minus 17.8 degrees Celsius are -0.04 degrees Fahrenheit, shown as -0.0. *)
Lemma fahrenheit_shown_exactly_witness :
  get_temperature (configure {[ py "WEATHER_TEMPERATURE_UNIT" := py "F" ]})
    (VDict [(py "temperature_2m", reading (-178))])
  = Ok (py "-0.0°F").
Proof.
  assert (temp_unit (configure {[ py "WEATHER_TEMPERATURE_UNIT" := py "F" ]}) = py "f")
    as Hunit by (vm_compute; reflexivity).
  rewrite (proj1 (fahrenheit_shown_exactly _
                    (VDict [(py "temperature_2m", reading (-178))]) Hunit)
             (-178)).
  - vm_compute. reflexivity.
  - lia.
  - reflexivity.
Defined.

(** 20.3 degrees at a humidity of 80: 22.3 are felt. *)
Lemma feels_like_shown_exactly_witness :
  get_feels_like default_settings
    (VDict [(py "temperature_2m", reading 203); (py "relative_humidity_2m", VInt 80)])
  = Ok (py "22.3°C").
Proof.
  rewrite (proj1 (feels_like_shown_exactly default_settings
                    (VDict [(py "temperature_2m", reading 203);
                            (py "relative_humidity_2m", VInt 80)])
                    203 80 ltac:(lia) eq_refl eq_refl)).
  - vm_compute. reflexivity.
  - vm_compute. reflexivity.
Defined.

(** 10.5 km/h are 6.5 miles per hour. *)
Lemma wind_speed_shown_exactly_witness :
  get_wind_speed (configure {[ py "WEATHER_WINDSPEED_UNIT" := py "mph" ]}) sample_current
  = Ok (py "6.5 mph").
Proof.
  assert (windspeed_unit (configure {[ py "WEATHER_WINDSPEED_UNIT" := py "mph" ]}) = py "mph")
    as Hunit by (vm_compute; reflexivity).
  rewrite (proj1 (wind_speed_shown_exactly _ sample_current Hunit) 105).
  - vm_compute. reflexivity.
  - lia.
  - reflexivity.
Defined.

(** A wind speed that is [null]. *)
Lemma wind_speed_as_given_or_refused_witness :
  get_wind_speed default_settings (VDict [(py "wind_speed_10m", VNone)])
  = Ok (py "None km/h")
  ∧ ∃ message,
      get_wind_speed (configure {[ py "WEATHER_WINDSPEED_UNIT" := py "mph" ]})
        (VDict [(py "wind_speed_10m", VNone)])
      = Raised (Exn TypeError message).
Proof.
  split.
  - rewrite (proj1 (proj1 (wind_speed_as_given_or_refused default_settings
                             (VDict [(py "wind_speed_10m", VNone)])) VNone eq_refl)).
    + vm_compute. reflexivity.
    + vm_compute. reflexivity.
    + reflexivity.
  - apply (proj1 (wind_speed_as_given_or_refused _
                    (VDict [(py "wind_speed_10m", VNone)])) VNone eq_refl).
    + vm_compute. reflexivity.
    + reflexivity.
Defined.

(** ** Times of day, codes that are no integers, and the number of days *)

Lemma split_no_sep sep (s : pystr) : sep ∉ s → split sep s = [s].
Proof.
  induction s as [|c s IH]; cbn [split]; [done|].
  intros [Hne Hs]%not_elem_of_cons.
  destruct (N.eqb_spec c sep) as [->|_]; [done|]. by rewrite IH.
Qed.

Lemma split_at sep (a b : pystr) :
  sep ∉ a → split sep (a ++ sep :: b) = a :: split sep b.
Proof.
  induction a as [|c a IH]; cbn [split app].
  - by rewrite N.eqb_refl.
  - intros [Hne Ha]%not_elem_of_cons.
    destruct (N.eqb_spec c sep) as [->|_]; [done|]. by rewrite IH.
Qed.

(** The floats that are whole numbers from 0 to 99 are the keys that the
    integers are. *)
Lemma whole_floats_checked :
  forallb (λ n, match float_of_int n with
                | Ok f =>
                  match int_key (VFloat f) with
                  | Ok (Some m) => m =? n
                  | _ => false
                  end
                | Raised _ => false
                end) (seqZ 0 100) = true.
Proof. vm_compute. reflexivity. Qed.

Section days.
Context `{PyBuiltins}.

Lemma time_of_day_item daily field i :
  time_of_day daily field i
  = day_item daily field i ≫= λ stamp,
      py_split_T stamp ≫= λ parts, list_item_1 parts ≫= λ hhmm, Ok (take 5 hhmm).
Proof.
  unfold time_of_day, day_item.
  destruct (getitem daily field) as [column|]; [|done]. cbn [mbind outcome_bind].
  by destruct (getindex column i).
Qed.

(** X17: sunrise and sunset are shown as the first five characters after
    the [T] of the time stamp, the hours and minutes of an ISO 8601 stamp,
    whatever follows them; a stamp without a [T] raises [IndexError]. *)
Theorem sunrise_and_sunset_times daily field i stamp :
  day_item daily field i = Ok (VStr stamp) →
  (∀ date time,
     stamp = date ++ py "T" ++ time → 84%N ∉ date → 84%N ∉ time →
     time_of_day daily field i = Ok (take 5 time))
  ∧ (84%N ∉ stamp →
     time_of_day daily field i = Raised (Exn IndexError (py "list index out of range"))).
Proof.
  intros Hstamp. rewrite time_of_day_item, Hstamp.
  cbn [mbind outcome_bind py_split_T]. split.
  - intros date time -> Hdate Htime.
    change (py "T" ++ time) with (84%N :: time).
    by rewrite split_at, split_no_sep.
  - intros Hno. by rewrite split_no_sep.
Qed.

Lemma table_get_key table code fallback z :
  int_key code = Ok (Some z) →
  table_get table code fallback = table_get table (VInt z) fallback.
Proof. intros Hkey. unfold table_get. by rewrite Hkey. Qed.

(** X18: a weather code that is no integer.  A text (the text [3] too) and
    [null] are looked up and not found: they are shown as unknown.  [true]
    and [false] are the integers 1 and 0, and a float that is a whole number
    from 0 to 99 is that number.  A list or an object cannot be looked up:
    both functions raise [TypeError]. *)
Theorem weather_code_that_is_no_integer :
  (∀ code,
     code = VNone ∨ (∃ s, code = VStr s) →
     get_weather_icon code = Ok (py "❓") ∧ get_description code = Ok (py "Unknown"))
  ∧ (∀ b : bool,
       get_weather_icon (VBool b) = get_weather_icon (VInt (Z.b2z b))
       ∧ get_description (VBool b) = get_description (VInt (Z.b2z b)))
  ∧ (∀ n f,
       0 ≤ n ≤ 99 → float_of_int n = Ok f →
       get_weather_icon (VFloat f) = get_weather_icon (VInt n)
       ∧ get_description (VFloat f) = get_description (VInt n))
  ∧ (∀ code,
       (∃ l, code = VList l) ∨ (∃ d, code = VDict d) →
       ∃ message,
         get_weather_icon code = Raised (Exn TypeError message)
         ∧ get_description code = Raised (Exn TypeError message)).
Proof.
  split; [|split; [|split]].
  - by intros code [->|[s ->]].
  - by intros b.
  - intros n f Hn Hf.
    pose proof (checked_between _ _ _ whole_floats_checked n ltac:(lia)) as Hkey.
    cbv beta in Hkey. rewrite Hf in Hkey.
    destruct (int_key (VFloat f)) as [[m|]|] eqn:Hm; try discriminate Hkey.
    apply Z.eqb_eq in Hkey as ->.
    unfold get_weather_icon, get_description.
    by rewrite !(table_get_key _ _ _ _ Hm).
  - intros code [[l ->]|[d ->]]; by eexists.
Qed.



End days.

(** A stamp with seconds: they are cut off. *)
Lemma sunrise_and_sunset_times_witness :
  time_of_day (VDict [(py "sunrise", VList [VStr (py "2024-05-01T06:31:45")])])
    (py "sunrise") 0
  = Ok (py "06:31").
Proof.
  rewrite (proj1 (sunrise_and_sunset_times
                    (VDict [(py "sunrise", VList [VStr (py "2024-05-01T06:31:45")])])
                    (py "sunrise") 0 (py "2024-05-01T06:31:45") eq_refl)
             (py "2024-05-01") (py "06:31:45")).
  - vm_compute. reflexivity.
  - vm_compute. reflexivity.
  - by_evaluation.
  - by_evaluation.
Defined.

(** The text [3] is not the code 3, and the float 61.0 is the code 61. *)
Lemma weather_code_that_is_no_integer_witness :
  get_description (VStr (py "3")) = Ok (py "Unknown")
  ∧ get_description (VFloat (decimal_to_float 61 0)) = Ok (py "Slight rain").
Proof.
  destruct weather_code_that_is_no_integer as (Htext & _ & Hfloat & _). split.
  - apply Htext. right. by exists (py "3").
  - rewrite (proj2 (Hfloat 61 (decimal_to_float 61 0) ltac:(lia) eq_refl)).
    vm_compute. reflexivity.
Defined.

